(** * AS5600L magnetic rotary position sensor driver (MicroPython)

    A shallow embedding of [src/ASL5600L.py] and the properties of its
    configuration encoding, its status decoding and its angle queries.

    The driver talks to the sensor through [machine.I2C].  The bus handle is
    modelled as a record that carries the state of the attached device and
    the chronological list of the transactions issued on it; the device
    itself is an interface ([Device]) with one simulated instance, a
    register file with an address pointer ([SimDevice]). *)

From Stdlib Require Import ZArith Lia Bool List Strings.Byte Floats Uint63.
From stdpp Require Import base option list gmap strings.

Local Open Scope Z_scope.

(** ** Python values and primitives used by the driver *)

(** The only exception the modelled code can raise by itself:
    [bytes([...])] raises [ValueError] on an item outside [range(256)]. *)
Inductive PyError : Type :=
| ValueError.

Inductive Result (A : Type) : Type :=
| Ok (a : A)
| Raise (e : PyError).
Arguments Ok {A} a.
Arguments Raise {A} e.

(** [x in range(lo, hi)] for an integer [x]. *)
Definition in_range (x lo hi : Z) : bool :=
  (lo <=? x) && (x <? hi).

(** [bool(n)] for an integer [n]. *)
Definition py_bool (n : Z) : bool :=
  negb (n =? 0).

(** [float(n)] for an integer [n] with [0 <= n < 2^63]: the binary64 value
    nearest to [n] (exact below [2^53]).  The driver only converts the
    result of a two-byte read. *)
Definition py_float (n : Z) : float :=
  PrimFloat.of_uint63 (Uint63.of_Z n).

Definition byte_to_int (b : byte) : Z :=
  Z.of_N (Byte.to_N b).

(** One item of [bytes([...])]: an integer in [range(256)], or nothing. *)
Definition byte_of_int (n : Z) : option byte :=
  if 0 <=? n then Byte.of_N (Z.to_N n) else None.

(** [bytes(items)]: fails with [ValueError] as soon as an item does not fit
    a byte. *)
Fixpoint bytes (items : list Z) : Result (list byte) :=
  match items with
  | [] => Ok []
  | n :: rest =>
      match byte_of_int n with
      | None => Raise ValueError
      | Some b =>
          match bytes rest with
          | Ok bs => Ok (b :: bs)
          | Raise e => Raise e
          end
      end
  end.

(** [int.from_bytes(bs, 'big')]. *)
Definition int_from_bytes_big (bs : list byte) : Z :=
  fold_left (fun acc b => acc * 256 + byte_to_int b) bs 0.

(** Values stored in the dictionary returned by [getStatus]. *)
Inductive PyVal : Type :=
| PyBool (b : bool)
| PyInt (n : Z).

(** ** The bus *)

(** A transaction as the driver issues it: [writeto(addr, buf)] or
    [readfrom(addr, nbytes)]. *)
Inductive BusOp : Type :=
| WriteTo (addr : Z) (buf : list byte)
| ReadFrom (addr : Z) (nbytes : nat).

(** What is attached to the bus: it consumes the bytes written to an
    address and answers a read with bytes. *)
Class Device (D : Type) : Type := {
  dev_write : Z -> list byte -> D -> D;
  dev_read : Z -> nat -> D -> list byte * D
}.

(** [readfrom(addr, n)] returns exactly [n] bytes on a working bus. *)
Class FullReads (D : Type) `{Device D} : Prop :=
  dev_read_length : forall addr n d, length (fst (dev_read addr n d)) = n.

(** The handle returned by [I2C(i2cId, freq=i2cFreq)]. *)
Record I2C (D : Type) : Type := mkI2C {
  bus_id : Z;
  bus_freq : Z;
  wire : D;
  trace : list BusOp
}.
Arguments mkI2C {D} _ _ _ _.
Arguments bus_id {D} _.
Arguments bus_freq {D} _.
Arguments wire {D} _.
Arguments trace {D} _.

(** The keyword arguments of the constructor. *)
Record Options : Type := mkOptions {
  i2cId : Z;
  i2cFreq : Z;
  hyst : Z;
  powerMode : Z;
  watchdog : Z;
  fastFilterThreshold : Z;
  slowFilter : Z;
  pwmFreq : Z;
  outputStage : Z
}.

(** The defaults of the signature of [__init__]. *)
Definition default_options : Options :=
  mkOptions 0 1000000 0 0 0 0 0 0 0.

(** The seven configuration options, to name one of them. *)
Inductive Field : Type :=
| Hyst | PowerMode | Watchdog | FastFilterThreshold | SlowFilter | PwmFreq
| OutputStage.

Definition get_option (f : Field) (o : Options) : Z :=
  match f with
  | Hyst => hyst o
  | PowerMode => powerMode o
  | Watchdog => watchdog o
  | FastFilterThreshold => fastFilterThreshold o
  | SlowFilter => slowFilter o
  | PwmFreq => pwmFreq o
  | OutputStage => outputStage o
  end.

Definition set_option (f : Field) (v : Z) (o : Options) : Options :=
  match f with
  | Hyst =>
      mkOptions (i2cId o) (i2cFreq o) v (powerMode o) (watchdog o)
        (fastFilterThreshold o) (slowFilter o) (pwmFreq o) (outputStage o)
  | PowerMode =>
      mkOptions (i2cId o) (i2cFreq o) (hyst o) v (watchdog o)
        (fastFilterThreshold o) (slowFilter o) (pwmFreq o) (outputStage o)
  | Watchdog =>
      mkOptions (i2cId o) (i2cFreq o) (hyst o) (powerMode o) v
        (fastFilterThreshold o) (slowFilter o) (pwmFreq o) (outputStage o)
  | FastFilterThreshold =>
      mkOptions (i2cId o) (i2cFreq o) (hyst o) (powerMode o) (watchdog o)
        v (slowFilter o) (pwmFreq o) (outputStage o)
  | SlowFilter =>
      mkOptions (i2cId o) (i2cFreq o) (hyst o) (powerMode o) (watchdog o)
        (fastFilterThreshold o) v (pwmFreq o) (outputStage o)
  | PwmFreq =>
      mkOptions (i2cId o) (i2cFreq o) (hyst o) (powerMode o) (watchdog o)
        (fastFilterThreshold o) (slowFilter o) v (outputStage o)
  | OutputStage =>
      mkOptions (i2cId o) (i2cFreq o) (hyst o) (powerMode o) (watchdog o)
        (fastFilterThreshold o) (slowFilter o) (pwmFreq o) v
  end.

(** The documented valid range of each option, as the half-open interval
    the constructor tests with [in range(lo, hi)]. *)
Definition valid_hi (f : Field) : Z :=
  match f with
  | Hyst => 4
  | PowerMode => 4
  | Watchdog => 2
  | FastFilterThreshold => 8
  | SlowFilter => 4
  | PwmFreq => 4
  | OutputStage => 2
  end.

Definition valid_option (f : Field) (o : Options) : bool :=
  in_range (get_option f o) 0 (valid_hi f).

Definition valid_options (o : Options) : bool :=
  forallb (fun f => valid_option f o)
    [Hyst; PowerMode; Watchdog; FastFilterThreshold; SlowFilter; PwmFreq;
     OutputStage].

(** ** The driver *)

(** An instance of the class: its only attribute is [self.i2c]. *)
Record ASL5600L (D : Type) : Type := mkASL5600L {
  i2c : I2C D
}.
Arguments mkASL5600L {D} _.
Arguments i2c {D} _.

(** A method body: it runs on [self], may raise, and otherwise returns a
    value together with the updated [self]. *)
Definition Method (D A : Type) : Type :=
  ASL5600L D -> Result (A * ASL5600L D).

Definition ret {D A : Type} (a : A) : Method D A :=
  fun self => Ok (a, self).

Definition bind {D A B : Type} (m : Method D A) (k : A -> Method D B)
  : Method D B :=
  fun self =>
    match m self with
    | Ok (a, self') => k a self'
    | Raise e => Raise e
    end.

(** Evaluation of an expression that may raise, inside a method. *)
Definition lift {D A : Type} (r : Result A) : Method D A :=
  fun self =>
    match r with
    | Ok a => Ok (a, self)
    | Raise e => Raise e
    end.

Declare Scope method_scope.
Delimit Scope method_scope with method.
Notation "x <~ m ;; k" := (bind m (fun x => k))
  (at level 100, m at next level, k at level 200, right associativity)
  : method_scope.
Notation "m ;; k" := (bind m (fun _ => k))
  (at level 100, k at level 200, right associativity) : method_scope.

Section Driver.
Context {D : Type} `{Device D}.

(** [I2C(i2cId, freq=i2cFreq)] on the bus the device [d] is attached
    to: a fresh handle, nothing transmitted yet. *)
Definition I2C_new (d : D) (id freq : Z) : I2C D :=
  mkI2C id freq d [].

(** [self.i2c.writeto(addr, buf)]. *)
Definition writeto (addr : Z) (buf : list byte) : Method D unit :=
  fun self =>
    let bus := i2c self in
    Ok (tt, mkASL5600L
              (mkI2C (bus_id bus) (bus_freq bus)
                 (dev_write addr buf (wire bus))
                 (trace bus ++ [WriteTo addr buf]))).

(** [self.i2c.readfrom(addr, nbytes)]. *)
Definition readfrom (addr : Z) (nbytes : nat) : Method D (list byte) :=
  fun self =>
    let bus := i2c self in
    let (data, d') := dev_read addr nbytes (wire bus) in
    Ok (data, mkASL5600L
                (mkI2C (bus_id bus) (bus_freq bus) d'
                   (trace bus ++ [ReadFrom addr nbytes]))).

Local Open Scope method_scope.

Definition ADDRESS : Z := 0x40.

Definition CONF_REG : Z := 0x07.
Definition STATUS_REG : Z := 0x0B.
Definition ANGLE_REG : Z := 0x0E.
Definition AGC_REG : Z := 0x1A.

(** Lines 32 to 61 of [__init__]: the two configuration bytes. *)
Definition config_word (o : Options) : Z * Z :=
  let c1 := 0x00 in
  let c2 := 0x00 in
  let c1 := if in_range (watchdog o) 0 2
            then Z.lor c1 (Z.shiftl (watchdog o) 5) else c1 in
  let c1 := if in_range (fastFilterThreshold o) 0 8
            then Z.lor c1 (Z.shiftl (fastFilterThreshold o) 2) else c1 in
  let c1 := if in_range (slowFilter o) 0 4
            then Z.lor c1 (slowFilter o) else c1 in
  let c2 := if in_range (pwmFreq o) 0 4
            then Z.lor c2 (Z.shiftl (pwmFreq o) 6) else c2 in
  let c2 := if in_range (outputStage o) 0 2
            then Z.lor c2 (Z.shiftl (outputStage o) 4) else c2 in
  let c2 := if in_range (powerMode o) 0 4
            then Z.lor c2 (powerMode o) else c2 in
  let c2 := if in_range (hyst o) 0 4
            then Z.lor c2 (Z.shiftl (hyst o) 2) else c2 in
  (c1, c2).

(** [ASL5600L(...)]: line 31 creates the handle, line 63 transmits. *)
Definition __init__ (d : D) (o : Options) : Result (ASL5600L D) :=
  let self := mkASL5600L (I2C_new d (i2cId o) (i2cFreq o)) in
  let (c1, c2) := config_word o in
  match (buf <~ lift (bytes [CONF_REG; c1; c2]) ;;
         writeto ADDRESS buf) self with
  | Ok (_, self') => Ok self'
  | Raise e => Raise e
  end.

Definition getStatus : Method D (gmap string PyVal) :=
  sel <~ lift (bytes [STATUS_REG]) ;;
  writeto ADDRESS sel ;;
  data <~ readfrom ADDRESS 1 ;;
  let status := int_from_bytes_big data in
  (* the masks 0b00001000, 0b00010000 and 0b00100000 *)
  let mh := py_bool (Z.land status 0x08) in
  let ml := py_bool (Z.land status 0x10) in
  let md := py_bool (Z.land status 0x20) in
  sel <~ lift (bytes [AGC_REG]) ;;
  writeto ADDRESS sel ;;
  data <~ readfrom ADDRESS 1 ;;
  let agc := int_from_bytes_big data in
  ret (<["magnetDetected" := PyBool md]>
         (<["magnetTooWeak" := PyBool ml]>
            (<["magnetTooStrong" := PyBool mh]>
               (<["agc" := PyInt agc]> ∅)))).

Definition isOk : Method D bool :=
  sel <~ lift (bytes [STATUS_REG]) ;;
  writeto ADDRESS sel ;;
  data <~ readfrom ADDRESS 1 ;;
  let status := int_from_bytes_big data in
  (* the masks 0b00001000, 0b00010000 and 0b00100000 *)
  let mh := py_bool (Z.land status 0x08) in
  let ml := py_bool (Z.land status 0x10) in
  let md := py_bool (Z.land status 0x20) in
  if md && negb mh && negb ml then ret true else ret false.

Definition getAngle : Method D Z :=
  sel <~ lift (bytes [ANGLE_REG]) ;;
  writeto ADDRESS sel ;;
  data <~ readfrom ADDRESS 2 ;;
  ret (int_from_bytes_big data).

Definition getAngleDegrees : Method D (option float) :=
  ok <~ isOk ;;
  if ok then
    raw <~ getAngle ;;
    ret (Some (py_float raw / 4096 * 360)%float)
  else
    ret None.

Definition getAngleDegreesFast : Method D float :=
  writeto ADDRESS [x0e] ;;
  data <~ readfrom ADDRESS 2 ;;
  ret (py_float (int_from_bytes_big data) / 4096 * 360)%float.

Definition getConf : Method D Z :=
  sel <~ lift (bytes [CONF_REG]) ;;
  writeto ADDRESS sel ;;
  data <~ readfrom ADDRESS 2 ;;
  ret (int_from_bytes_big data).

End Driver.

(** The transaction pattern of every register read of the driver: a
    one-byte write that selects the register, then a read of [n] bytes. *)
Definition read_register {D : Type} `{Device D} (reg : byte) (n : nat)
  : Method D (list byte) :=
  (writeto ADDRESS [reg] ;; readfrom ADDRESS n)%method.

(** Its outcome: the bytes the device answers with, and [self] with the
    device moved on and the two transactions appended to the trace. *)
Definition read_result {D : Type} `{Device D} (reg : byte) (n : nat)
  (self : ASL5600L D) : list byte * ASL5600L D :=
  let bus := i2c self in
  let answer := dev_read ADDRESS n (dev_write ADDRESS [reg] (wire bus)) in
  (fst answer,
   mkASL5600L
     (mkI2C (bus_id bus) (bus_freq bus) (snd answer)
        (trace bus ++ [WriteTo ADDRESS [reg]; ReadFrom ADDRESS n]))).

(** The conversion both degree queries apply to the raw angle. *)
Definition degrees_of_raw (raw : Z) : float :=
  (py_float raw / 4096 * 360)%float.

(** The validity predicate of the status bits, row by row. *)
Definition isOk_table (detected tooStrong tooWeak : bool) : bool :=
  match detected, tooStrong, tooWeak with
  | true, false, false => true
  | true, false, true => false
  | true, true, false => false
  | true, true, true => false
  | false, false, false => false
  | false, false, true => false
  | false, true, false => false
  | false, true, true => false
  end.

(** The number of transactions of a trace that select the register [reg]
    of the sensor. *)
Definition selects (reg : Z) (op : BusOp) : bool :=
  match op with
  | WriteTo addr (r :: _) => (addr =? ADDRESS) && (byte_to_int r =? reg)
  | _ => false
  end.

Definition count_selects (reg : Z) (tr : list BusOp) : nat :=
  length (filter (fun op => selects reg op = true) tr).

Definition is_read (op : BusOp) : bool :=
  match op with
  | ReadFrom _ _ => true
  | WriteTo _ _ => false
  end.

(** The bit-packing formulas of the configuration bytes, as documented:
    C1 = (watchdog<<5) | (fastFilterThreshold<<2) | slowFilter and
    C2 = (pwmFrequency<<6) | (outputStage<<4) | (hysteresis<<2) | powerMode. *)
Definition packed_C1 (o : Options) : Z :=
  Z.lor (Z.lor (Z.shiftl (watchdog o) 5) (Z.shiftl (fastFilterThreshold o) 2))
    (slowFilter o).

Definition packed_C2 (o : Options) : Z :=
  Z.lor
    (Z.lor (Z.lor (Z.shiftl (pwmFreq o) 6) (Z.shiftl (outputStage o) 4))
       (Z.shiftl (hyst o) 2))
    (powerMode o).

(** An option as the documented policy reads it: its value when valid,
    zero otherwise. *)
Definition effective (f : Field) (o : Options) : Z :=
  if valid_option f o then get_option f o else 0.

Definition zero_invalid (o : Options) : Options :=
  mkOptions (i2cId o) (i2cFreq o) (effective Hyst o) (effective PowerMode o)
    (effective Watchdog o) (effective FastFilterThreshold o)
    (effective SlowFilter o) (effective PwmFreq o) (effective OutputStage o).

(** Where a field sits: in which byte of the pair, and from which bit up.
    Its width is that of its valid range. *)
Definition field_byte (f : Field) (w : Z * Z) : Z :=
  match f with
  | Watchdog | FastFilterThreshold | SlowFilter => fst w
  | PwmFreq | OutputStage | Hyst | PowerMode => snd w
  end.

Definition field_shift (f : Field) : Z :=
  match f with
  | Watchdog => 5
  | FastFilterThreshold => 2
  | SlowFilter => 0
  | PwmFreq => 6
  | OutputStage => 4
  | Hyst => 2
  | PowerMode => 0
  end.

Definition field_bits (f : Field) (w : Z * Z) : Z :=
  Z.land (Z.shiftr (field_byte f w) (field_shift f)) (valid_hi f - 1).

(** ** A simulated sensor

    A register file with an address pointer.  A write to the sensor's
    address sets the pointer to its first byte and stores the bytes that
    follow in consecutive registers; a read returns consecutive registers
    from the pointer on (an unwritten register reads as zero) and leaves
    the pointer where it is.  Another address is not ours: writes are
    ignored and reads see the idle bus. *)
Record SimDevice : Type := mkSim {
  pointer : Z;
  regs : gmap Z byte
}.

Fixpoint sim_store (p : Z) (payload : list byte) (m : gmap Z byte)
  : gmap Z byte :=
  match payload with
  | [] => m
  | b :: rest => sim_store (p + 1) rest (<[p := b]> m)
  end.

Fixpoint sim_load (p : Z) (n : nat) (m : gmap Z byte) : list byte :=
  match n with
  | O => []
  | S n' => default x00 (m !! p) :: sim_load (p + 1) n' m
  end.

Definition sim_write (addr : Z) (buf : list byte) (d : SimDevice)
  : SimDevice :=
  if addr =? ADDRESS then
    match buf with
    | [] => d
    | r :: payload =>
        mkSim (byte_to_int r) (sim_store (byte_to_int r) payload (regs d))
    end
  else d.

Definition sim_read (addr : Z) (n : nat) (d : SimDevice)
  : list byte * SimDevice :=
  if addr =? ADDRESS then (sim_load (pointer d) n (regs d), d)
  else (repeat xff n, d).

#[export] Instance SimDevice_Device : Device SimDevice := {
  dev_write := sim_write;
  dev_read := sim_read
}.

(** The byte congruent to [n] modulo 256. *)
Definition byte_wrap (n : Z) : byte :=
  default x00 (byte_of_int (n mod 256)).

(** Test set-up: put a byte in a register, or a 16-bit value in the
    register pair of the angle, high byte first. *)
Definition sim_poke (reg : Z) (b : byte) (d : SimDevice) : SimDevice :=
  mkSim (pointer d) (<[reg := b]> (regs d)).

Definition sim_poke_angle (v : Z) (d : SimDevice) : SimDevice :=
  sim_poke ANGLE_REG (byte_wrap (v / 256))
    (sim_poke (ANGLE_REG + 1) (byte_wrap v) d).

Definition sim_blank : SimDevice :=
  mkSim 0 ∅.

(** The documented test vector: hysteresis=2, powerMode=1, watchdog=1,
    fastFilterThreshold=5, slowFilter=2, pwmFrequency=3, outputStage=1. *)
Definition vector_options : Options :=
  mkOptions 0 1000000 2 1 1 5 2 3 1.

(** The facts about the conversion of one raw angle that are established
    by evaluation over the whole 12-bit range: the result is at least 0,
    below 360, and no rounding took place (scaled back by the power of two
    4096 it is the integer [360 * raw]).  That integer is below [2^21], so
    the result is the same real number in a single precision build of the
    interpreter. *)
Definition degrees_check (n : nat) : bool :=
  let raw := Z.of_nat n in
  let deg := degrees_of_raw raw in
  ((0 <=? deg) && (deg <? 360) && (deg * 4096 =? py_float (360 * raw)))%float.

(** ** The usage example

    [src/example.py] constructs the driver with [hyst=1], prints the status
    once and then prints the angle in degrees forever, sleeping between two
    polls.  What it prints is collected in a list; the endless loop is cut
    after a given number of rounds. *)
Inductive Printed : Type :=
| PrintedStatus (st : gmap string PyVal)
| PrintedDegrees (deg : option float).

Fixpoint poll {D : Type} `{Device D} (rounds : nat)
  : Method D (list Printed) :=
  match rounds with
  | O => ret []
  | S rounds' =>
      (deg <~ getAngleDegrees ;;
       rest <~ poll rounds' ;;
       ret (PrintedDegrees deg :: rest))%method
  end.

Definition example {D : Type} `{Device D} (d : D) (rounds : nat)
  : Result (list Printed * ASL5600L D) :=
  match __init__ d (set_option Hyst 1 default_options) with
  | Ok myPos =>
      (st <~ getStatus ;;
       rest <~ poll rounds ;;
       ret (PrintedStatus st :: rest))%method myPos
  | Raise e => Raise e
  end.

(** A write that carries data beyond the register selector. *)
Definition transfers_payload (op : BusOp) : bool :=
  match op with
  | WriteTo _ (_ :: _ :: _) => true
  | _ => false
  end.

(** The number of printed angles that are values, not None. *)
Definition count_values (out : list Printed) : nat :=
  length (filter (fun p => match p with
                           | PrintedDegrees (Some _) => true
                           | _ => false
                           end = true) out).

(** ** Observations used in the statements *)

(** The value a call returned, if it returned. *)
Definition value_of {A S : Type} (r : Result (A * S)) : option A :=
  match r with
  | Ok (a, _) => Some a
  | Raise _ => None
  end.

(** The integer a finite float holds, rounded towards minus infinity. *)
Definition float_to_int (x : float) : Z :=
  match Prim2SF x with
  | S754_finite s m e =>
      let n := Z.shiftl (Z.pos m) e in if s then - n else n
  | _ => 0
  end.

(** The raw angle a degree value stands for. *)
Definition raw_of_degrees (deg : float) : Z :=
  float_to_int (deg / 360 * 4096)%float.

(** Evaluation over the 12-bit range: converting back recovers the raw
    angle, and the next raw angle is exactly 360/4096 of a degree further. *)
Definition resolution_check (n : nat) : bool :=
  let raw := Z.of_nat n in
  (raw_of_degrees (degrees_of_raw raw) =? raw) &&
  ((n =? 4095)%nat ||
   (degrees_of_raw (raw + 1) - degrees_of_raw raw =? 360 / 4096)%float).

(** Evaluation over the 16-bit values that exceed the 12-bit range: the
    conversion reaches or passes 360. *)
Definition overflow_check (raw : Z) : bool :=
  (360 <=? degrees_of_raw raw)%float.

(** A test holds at [count] consecutive integers from [start] on. *)
Fixpoint holds_from (test : Z -> bool) (start : Z) (count : nat) : bool :=
  match count with
  | O => true
  | S count' => test start && holds_from test (start + 1) count'
  end.

(** Evaluation over all 16-bit values: the conversion stays in [0, 5760). *)
Definition span_check (raw : Z) : bool :=
  ((0 <=? degrees_of_raw raw) && (degrees_of_raw raw <? 5760))%float.

(** A method of the driver keeps the registers of the simulated sensor and
    the identity of the bus handle. *)
Definition keeps_registers {A : Type} (m : Method SimDevice A) : Prop :=
  forall self : ASL5600L SimDevice,
    exists (a : A) (self' : ASL5600L SimDevice),
      m self = Ok (a, self') /\
      regs (wire (i2c self')) = regs (wire (i2c self)) /\
      bus_id (i2c self') = bus_id (i2c self) /\
      bus_freq (i2c self') = bus_freq (i2c self).

(** * Properties *)

(** ** Bytes and integers *)

Lemma byte_to_int_range (b : byte) : 0 <= byte_to_int b < 256.
Proof.
  unfold byte_to_int. pose proof (Byte.to_N_bounded b). lia.
Qed.

Lemma byte_of_int_Some (n : Z) :
  0 <= n < 256 -> exists b, byte_of_int n = Some b /\ byte_to_int b = n.
Proof.
  intros Hn. unfold byte_of_int.
  replace (0 <=? n) with true by (symmetry; apply Z.leb_le; lia).
  destruct (Byte.of_N (Z.to_N n)) as [b|] eqn:E.
  - exists b. split; [reflexivity|].
    unfold byte_to_int. rewrite (Byte.to_of_N _ E). lia.
  - apply Byte.of_N_None_iff in E. lia.
Qed.

Lemma byte_of_int_None (n : Z) :
  ~ 0 <= n < 256 -> byte_of_int n = None.
Proof.
  intros Hn. unfold byte_of_int.
  destruct (0 <=? n) eqn:E; [|reflexivity].
  apply Z.leb_le in E. apply Byte.of_N_None_iff. lia.
Qed.

Lemma byte_of_int_to_int (b : byte) : byte_of_int (byte_to_int b) = Some b.
Proof.
  unfold byte_of_int, byte_to_int.
  replace (0 <=? Z.of_N (Byte.to_N b)) with true
    by (symmetry; apply Z.leb_le; lia).
  rewrite N2Z.id. apply Byte.of_to_N.
Qed.

Lemma byte_to_int_inj (a b : byte) : byte_to_int a = byte_to_int b -> a = b.
Proof.
  intros E. pose proof (byte_of_int_to_int a) as Ha.
  rewrite E, byte_of_int_to_int in Ha. congruence.
Qed.

Lemma byte_wrap_to_int (n : Z) : byte_to_int (byte_wrap n) = n mod 256.
Proof.
  unfold byte_wrap.
  destruct (byte_of_int_Some (n mod 256)) as (b & -> & Hb);
    [apply Z.mod_pos_bound; lia | exact Hb].
Qed.

Lemma int_from_bytes_big_1 (b : byte) :
  int_from_bytes_big [b] = byte_to_int b.
Proof. reflexivity. Qed.

Lemma int_from_bytes_big_2 (hi lo : byte) :
  int_from_bytes_big [hi; lo] = byte_to_int hi * 256 + byte_to_int lo.
Proof. reflexivity. Qed.

Lemma int_from_bytes_big_range (bs : list byte) :
  0 <= int_from_bytes_big bs < 256 ^ Z.of_nat (length bs).
Proof.
  unfold int_from_bytes_big.
  assert (G : forall acc k, 0 <= acc < 256 ^ k -> 0 <= k ->
    0 <= fold_left (fun a b => a * 256 + byte_to_int b) bs acc
      < 256 ^ (k + Z.of_nat (length bs))).
  { induction bs as [|b bs IH]; intros acc k Hacc Hk; simpl length.
    - simpl. rewrite Z.add_0_r. exact Hacc.
    - simpl fold_left. rewrite Nat2Z.inj_succ.
      replace (k + Z.succ (Z.of_nat (length bs)))
        with ((k + 1) + Z.of_nat (length bs)) by lia.
      apply IH; [|lia].
      rewrite Z.pow_add_r, Z.pow_1_r by lia.
      pose proof (byte_to_int_range b). nia. }
  apply (G 0 0); simpl; lia.
Qed.

(** [bool(status & 2^k)] is bit [k] of [status]. *)
Lemma py_bool_land_pow2 (status k : Z) :
  0 <= k -> py_bool (Z.land status (2 ^ k)) = Z.testbit status k.
Proof.
  intros Hk. unfold py_bool.
  destruct (Z.testbit status k) eqn:E.
  - apply negb_true_iff, Z.eqb_neq. intros Hz.
    assert (T : Z.testbit (Z.land status (2 ^ k)) k = true)
      by (rewrite Z.land_spec, E, Z.pow2_bits_true by lia; reflexivity).
    rewrite Hz, Z.bits_0 in T. discriminate.
  - apply negb_false_iff, Z.eqb_eq, Z.bits_inj'. intros i Hi.
    rewrite Z.land_spec, Z.bits_0, Z.pow2_bits_eqb by lia.
    destruct (Z.eqb_spec k i) as [->|]; [rewrite E|]; auto using andb_false_r.
Qed.

Lemma status_bits (status : Z) :
  py_bool (Z.land status 0x08) = Z.testbit status 3 /\
  py_bool (Z.land status 0x10) = Z.testbit status 4 /\
  py_bool (Z.land status 0x20) = Z.testbit status 5.
Proof.
  repeat split.
  - apply (py_bool_land_pow2 status 3). lia.
  - apply (py_bool_land_pow2 status 4). lia.
  - apply (py_bool_land_pow2 status 5). lia.
Qed.

(** ** The configuration word *)

Lemma in_range_true (x lo hi : Z) : in_range x lo hi = true <-> lo <= x < hi.
Proof. unfold in_range. rewrite andb_true_iff, Z.leb_le, Z.ltb_lt. tauto. Qed.

Lemma in_range_false (x lo hi : Z) :
  in_range x lo hi = false <-> ~ lo <= x < hi.
Proof.
  rewrite <- in_range_true. destruct (in_range x lo hi); intuition congruence.
Qed.

Lemma effective_range (f : Field) (o : Options) :
  0 <= effective f o < valid_hi f.
Proof.
  unfold effective, valid_option.
  destruct (in_range _ _ _) eqn:E.
  - now apply in_range_true in E.
  - destruct f; simpl; lia.
Qed.

Lemma effective_valid (f : Field) (o : Options) :
  valid_option f o = true -> effective f o = get_option f o.
Proof. unfold effective. now intros ->. Qed.

Lemma effective_invalid (f : Field) (o : Options) :
  valid_option f o = false -> effective f o = 0.
Proof. unfold effective. now intros ->. Qed.

Lemma lor_swap (a b c : Z) : Z.lor (Z.lor a b) c = Z.lor (Z.lor a c) b.
Proof. now rewrite <- !Z.lor_assoc, (Z.lor_comm b c). Qed.

(** The code computes the documented formulas on the effective options,
    whatever it is given. *)
Lemma config_word_effective (o : Options) :
  config_word o = (packed_C1 (zero_invalid o), packed_C2 (zero_invalid o)).
Proof.
  destruct o as [id fr h pm w f s p os].
  unfold config_word, packed_C1, packed_C2, zero_invalid, effective,
    valid_option, get_option, valid_hi.
  cbn [watchdog fastFilterThreshold slowFilter pwmFreq outputStage powerMode
       hyst i2cId i2cFreq].
  destruct (in_range w 0 2), (in_range f 0 8), (in_range s 0 4),
    (in_range p 0 4), (in_range os 0 2), (in_range pm 0 4),
    (in_range h 0 4);
    rewrite ?Z.shiftl_0_l, ?Z.lor_0_l, ?Z.lor_0_r;
    f_equal; auto using lor_swap, Z.lor_comm.
Qed.

Lemma zero_invalid_valid (o : Options) :
  valid_options o = true -> zero_invalid o = o.
Proof.
  unfold valid_options. cbn [forallb]. rewrite !andb_true_iff.
  intros (Hh & Hpm & Hw & Hf & Hs & Hp & Hos & _).
  unfold zero_invalid. rewrite !effective_valid by assumption.
  now destruct o.
Qed.

Lemma lor_below (a b n : Z) :
  0 <= n -> 0 <= a < 2 ^ n -> 0 <= b < 2 ^ n -> 0 <= Z.lor a b < 2 ^ n.
Proof.
  intros Hn Ha Hb. split; [apply Z.lor_nonneg; lia|].
  destruct (Z.eq_dec (Z.lor a b) 0) as [->|Hne]; [lia|].
  assert (0 <= Z.lor a b) by (apply Z.lor_nonneg; lia).
  assert (0 < n).
  { destruct (Z.eq_dec n 0) as [->|]; [|lia].
    assert (a = 0) by (simpl in Ha; lia).
    assert (b = 0) by (simpl in Hb; lia).
    subst. now simpl in Hne. }
  apply Z.log2_lt_pow2; [lia|].
  rewrite Z.log2_lor by lia.
  apply Z.max_lub_lt.
  - destruct (Z.eq_dec a 0) as [->|]; [simpl; lia|].
    apply Z.log2_lt_pow2; lia.
  - destruct (Z.eq_dec b 0) as [->|]; [simpl; lia|].
    apply Z.log2_lt_pow2; lia.
Qed.

Lemma packed_range (o : Options) :
  valid_options o = true ->
  0 <= packed_C1 o < 256 /\ 0 <= packed_C2 o < 256.
Proof.
  unfold valid_options. cbn [forallb]. rewrite !andb_true_iff.
  unfold valid_option, get_option, valid_hi. rewrite !in_range_true.
  intros (Hh & Hpm & Hw & Hf & Hs & Hp & Hos & _).
  unfold packed_C1, packed_C2. rewrite !Z.shiftl_mul_pow2 by lia.
  change 256 with (2 ^ 8).
  split; repeat (apply lor_below; [lia| |]); lia.
Qed.

Lemma zero_invalid_is_valid (o : Options) :
  valid_options (zero_invalid o) = true.
Proof.
  unfold valid_options. cbn [forallb]. rewrite !andb_true_iff.
  unfold valid_option at 1 2 3 4 5 6 7.
  unfold zero_invalid, get_option.
  cbn [watchdog fastFilterThreshold slowFilter pwmFreq outputStage powerMode
       hyst].
  rewrite !in_range_true.
  repeat split; try apply effective_range.
Qed.

Lemma config_word_range (o : Options) :
  0 <= fst (config_word o) < 256 /\ 0 <= snd (config_word o) < 256.
Proof.
  rewrite config_word_effective. cbn [fst snd].
  apply packed_range, zero_invalid_is_valid.
Qed.

Ltac split_ors :=
  repeat match goal with
         | H : _ \/ _ |- _ => destruct H as [H|H]
         end.

(** Each field can be read back from the packed pair: the fields do not
    overlap. *)
Lemma field_bits_packed (f : Field) (o : Options) :
  valid_options o = true ->
  field_bits f (packed_C1 o, packed_C2 o) = get_option f o.
Proof.
  unfold valid_options. cbn [forallb]. rewrite !andb_true_iff.
  unfold valid_option, get_option, valid_hi. rewrite !in_range_true.
  destruct o as [id fr h pm w ff s p os].
  cbn [watchdog fastFilterThreshold slowFilter pwmFreq outputStage powerMode
       hyst].
  intros (Hh & Hpm & Hw & Hf & Hs & Hp & Hos & _).
  unfold field_bits, packed_C1, packed_C2.
  destruct f;
    cbn [field_byte field_shift valid_hi fst snd watchdog
         fastFilterThreshold slowFilter pwmFreq outputStage powerMode hyst].
  1, 2, 6, 7:
    assert (Eh : h = 0 \/ h = 1 \/ h = 2 \/ h = 3) by lia;
    assert (Epm : pm = 0 \/ pm = 1 \/ pm = 2 \/ pm = 3) by lia;
    assert (Ep : p = 0 \/ p = 1 \/ p = 2 \/ p = 3) by lia;
    assert (Eos : os = 0 \/ os = 1) by lia;
    split_ors; subst; reflexivity.
  all:
    assert (Ew : w = 0 \/ w = 1) by lia;
    assert (Es : s = 0 \/ s = 1 \/ s = 2 \/ s = 3) by lia;
    assert (Ef : ff = 0 \/ ff = 1 \/ ff = 2 \/ ff = 3 \/
                 ff = 4 \/ ff = 5 \/ ff = 6 \/ ff = 7) by lia;
    split_ors; subst; reflexivity.
Qed.

Lemma field_bits_config_word (f : Field) (o : Options) :
  field_bits f (config_word o) = effective f o.
Proof.
  rewrite config_word_effective, field_bits_packed
    by apply zero_invalid_is_valid.
  now destruct f.
Qed.

Lemma config_word_set_zero (f : Field) (o : Options) :
  valid_option f o = false -> config_word o = config_word (set_option f 0 o).
Proof.
  intros Hf. rewrite !config_word_effective.
  assert (E : zero_invalid o = zero_invalid (set_option f 0 o)).
  { unfold zero_invalid.
    destruct f, o; unfold effective, valid_option, get_option, valid_hi in *;
      cbn in Hf |- *; rewrite Hf; reflexivity. }
  now rewrite E.
Qed.

Section Construction.
Context {D : Type} `{Device D}.

(** What the constructor does, for any arguments. *)
Lemma init_run (d : D) (o : Options) :
  exists b1 b2 : byte,
    byte_to_int b1 = fst (config_word o) /\
    byte_to_int b2 = snd (config_word o) /\
    __init__ d o =
      Ok (mkASL5600L
            (mkI2C (i2cId o) (i2cFreq o)
               (dev_write ADDRESS [x07; b1; b2] d)
               [WriteTo ADDRESS [x07; b1; b2]])).
Proof.
  destruct (config_word_range o) as [R1 R2].
  unfold __init__. destruct (config_word o) as [c1 c2]. cbn [fst snd] in *.
  destruct (byte_of_int_Some c1 R1) as (b1 & E1 & V1).
  destruct (byte_of_int_Some c2 R2) as (b2 & E2 & V2).
  exists b1, b2. repeat split; try assumption.
  unfold bind, lift, bytes.
  change (byte_of_int CONF_REG) with (Some x07).
  rewrite E1, E2. reflexivity.
Qed.

End Construction.

(** C1 (amended).  For every combination of option values within their
    valid ranges the constructor assembles
    C1 = (watchdog<<5) | (fastFilterThreshold<<2) | slowFilter and
    C2 = (pwmFrequency<<6) | (outputStage<<4) | (hysteresis<<2) | powerMode;
    for hysteresis=2, powerMode=1, watchdog=1, fastFilterThreshold=5,
    slowFilter=2, pwmFrequency=3, outputStage=1 these bytes are
    C1=0x36 and C2=0xD9. *)
Theorem config_word_packing (o : Options) :
  valid_options o = true ->
  config_word o = (packed_C1 o, packed_C2 o) /\
  config_word vector_options = (0x36, 0xD9).
Proof.
  intros Hv. split; [|reflexivity].
  now rewrite config_word_effective, zero_invalid_valid.
Qed.

Lemma config_word_packing_witness :
  config_word vector_options
    = (packed_C1 vector_options, packed_C2 vector_options) /\
  config_word vector_options = (0x36, 0xD9).
Proof.
  apply (config_word_packing vector_options). reflexivity.
Defined.

(** C1 as stated fails: the documented vector is valid, and neither the
    code nor the documented formula gives it the bytes 0x29 and 0xDE. *)
Lemma config_word_vector_not_0x29_0xDE :
  valid_options vector_options = true /\
  fst (config_word vector_options) <> 0x29 /\
  snd (config_word vector_options) <> 0xDE /\
  packed_C1 vector_options <> 0x29 /\
  packed_C2 vector_options <> 0xDE.
Proof.
  repeat split; vm_compute; discriminate.
Qed.

Section ConstructionClaims.
Context {D : Type} `{Device D}.

(** C4.  An option outside its documented valid range (hysteresis 0..3,
    powerMode 0..3, watchdog 0..1, fastFilterThreshold 0..7, slowFilter
    0..3, pwmFrequency 0..3, outputStage 0..1) leaves its field's bits at
    zero and raises nothing: the configuration bytes, and the whole
    construction, are those of the same call with that option at 0. *)
Theorem out_of_range_option_as_zero (d : D) (f : Field) (o : Options) :
  valid_option f o = false ->
  config_word o = config_word (set_option f 0 o) /\
  field_bits f (config_word o) = 0 /\
  exists self : ASL5600L D,
    __init__ d o = Ok self /\ __init__ d (set_option f 0 o) = Ok self.
Proof.
  intros Hf. split; [now apply config_word_set_zero|]. split.
  - rewrite field_bits_config_word. now apply effective_invalid.
  - destruct (init_run d o) as (b1 & b2 & _ & _ & E).
    eexists. split; [exact E|]. rewrite <- E.
    unfold __init__. rewrite <- (config_word_set_zero f o Hf).
    now destruct f.
Qed.

(** C8.  Whatever the option values, construction issues exactly one bus
    transaction: a write to the device address whose payload is the
    selector of the configuration register followed by [C1, C2].  Nothing
    is read back. *)
Theorem init_one_write (d : D) (o : Options) :
  exists (b1 b2 : byte) (self : ASL5600L D),
    __init__ d o = Ok self /\
    byte_to_int b1 = fst (config_word o) /\
    byte_to_int b2 = snd (config_word o) /\
    trace (i2c self) = [WriteTo ADDRESS [x07; b1; b2]] /\
    byte_to_int x07 = CONF_REG /\
    wire (i2c self) = dev_write ADDRESS [x07; b1; b2] d /\
    existsb is_read (trace (i2c self)) = false.
Proof.
  destruct (init_run d o) as (b1 & b2 & E1 & E2 & E).
  exists b1, b2. eexists. split; [exact E|].
  repeat split; assumption.
Qed.

(** C9.  For every tuple of integer arguments, negative or huge ones
    included, both assembled bytes lie in 0..255, so the three-byte payload
    can be built and construction does not fail. *)
Theorem init_never_fails (d : D) (o : Options) :
  0 <= fst (config_word o) < 256 /\
  0 <= snd (config_word o) < 256 /\
  (exists buf : list byte,
     bytes [CONF_REG; fst (config_word o); snd (config_word o)] = Ok buf) /\
  (exists self : ASL5600L D, __init__ d o = Ok self).
Proof.
  destruct (config_word_range o) as [R1 R2].
  split; [exact R1|]. split; [exact R2|]. split.
  - destruct (byte_of_int_Some _ R1) as (b1 & E1 & _).
    destruct (byte_of_int_Some _ R2) as (b2 & E2 & _).
    exists [x07; b1; b2]. unfold bytes.
    change (byte_of_int CONF_REG) with (Some x07).
    now rewrite E1, E2.
  - destruct (init_run d o) as (b1 & b2 & _ & _ & E). eauto.
Qed.

End ConstructionClaims.

Lemma out_of_range_option_as_zero_witness :
  let o := set_option Hyst 7 default_options in
  config_word o = config_word (set_option Hyst 0 o) /\
  field_bits Hyst (config_word o) = 0 /\
  exists self : ASL5600L SimDevice,
    __init__ sim_blank o = Ok self /\
    __init__ sim_blank (set_option Hyst 0 o) = Ok self.
Proof.
  apply (out_of_range_option_as_zero sim_blank Hyst
           (set_option Hyst 7 default_options)).
  reflexivity.
Defined.

(** ** Register reads, on any device *)

Section Queries.
Context {D : Type} `{Device D}.

Lemma read_register_run (reg : byte) (n : nat) (self : ASL5600L D) :
  read_register reg n self = Ok (read_result reg n self).
Proof.
  unfold read_register, read_result, bind, writeto, readfrom.
  cbn [i2c wire trace bus_id bus_freq].
  destruct (dev_read ADDRESS n _) as [data d'].
  cbn [fst snd]. now rewrite <- app_assoc.
Qed.

Lemma read_result_trace (reg : byte) (n : nat) (self : ASL5600L D) :
  trace (i2c (snd (read_result reg n self)))
  = trace (i2c self) ++ [WriteTo ADDRESS [reg]; ReadFrom ADDRESS n].
Proof. reflexivity. Qed.

(** Each query is its register reads followed by a pure decoding. *)
Lemma isOk_run (self : ASL5600L D) :
  isOk self =
    let (data, self') := read_result x0b 1 self in
    let status := int_from_bytes_big data in
    Ok (isOk_table (Z.testbit status 5) (Z.testbit status 3)
          (Z.testbit status 4), self').
Proof.
  pose proof (read_register_run x0b 1 self) as R.
  unfold read_register, bind in R.
  unfold isOk, bind, lift.
  change (bytes [STATUS_REG]) with (Ok [x0b]). cbv iota beta.
  destruct (writeto ADDRESS [x0b] self) as [[[] s1]|e]; [|discriminate].
  destruct (readfrom ADDRESS 1 s1) as [[data s2]|e]; [|discriminate].
  replace (read_result x0b 1 self) with (data, s2) by congruence.
  destruct (status_bits (int_from_bytes_big data)) as (-> & -> & ->).
  now destruct (Z.testbit _ 5), (Z.testbit _ 3), (Z.testbit _ 4).
Qed.

Lemma getAngle_run (self : ASL5600L D) :
  getAngle self =
    let (data, self') := read_result x0e 2 self in
    Ok (int_from_bytes_big data, self').
Proof.
  pose proof (read_register_run x0e 2 self) as R.
  unfold read_register, bind in R.
  unfold getAngle, bind, lift.
  change (bytes [ANGLE_REG]) with (Ok [x0e]). cbv iota beta.
  destruct (writeto ADDRESS [x0e] self) as [[[] s1]|e]; [|discriminate].
  destruct (readfrom ADDRESS 2 s1) as [[data s2]|e]; [|discriminate].
  now replace (read_result x0e 2 self) with (data, s2) by congruence.
Qed.

Lemma getAngleDegreesFast_run (self : ASL5600L D) :
  getAngleDegreesFast self =
    let (data, self') := read_result x0e 2 self in
    Ok (degrees_of_raw (int_from_bytes_big data), self').
Proof.
  pose proof (read_register_run x0e 2 self) as R.
  unfold read_register, bind in R.
  unfold getAngleDegreesFast, bind.
  destruct (writeto ADDRESS [x0e] self) as [[[] s1]|e]; [|discriminate].
  destruct (readfrom ADDRESS 2 s1) as [[data s2]|e]; [|discriminate].
  now replace (read_result x0e 2 self) with (data, s2) by congruence.
Qed.

Lemma getAngleDegrees_run (self : ASL5600L D) :
  getAngleDegrees self =
    match isOk self with
    | Ok (true, self1) =>
        match getAngle self1 with
        | Ok (raw, self2) => Ok (Some (degrees_of_raw raw), self2)
        | Raise e => Raise e
        end
    | Ok (false, self1) => Ok (None, self1)
    | Raise e => Raise e
    end.
Proof.
  unfold getAngleDegrees, bind.
  destruct (isOk self) as [[[] s1]|e]; reflexivity.
Qed.

Lemma count_selects_app (reg : Z) (tr1 tr2 : list BusOp) :
  count_selects reg (tr1 ++ tr2)
  = (count_selects reg tr1 + count_selects reg tr2)%nat.
Proof.
  unfold count_selects. now rewrite filter_app, length_app.
Qed.

End Queries.

Lemma isOk_table_spec (detected tooStrong tooWeak : bool) :
  isOk_table detected tooStrong tooWeak = true <->
  detected = true /\ tooStrong = false /\ tooWeak = false.
Proof.
  destruct detected, tooStrong, tooWeak; simpl; intuition congruence.
Qed.

Section QueryClaims.
Context {D : Type} `{Device D}.

(** C2.  [isOk] reads one byte from the status register and returns true
    if and only if bit 5 (magnet detected) is set, bit 3 (too strong) is
    clear and bit 4 (too weak) is clear; the seven other combinations of
    the three bits give false. *)
Theorem isOk_iff_status_bits (self : ASL5600L D) :
  exists (data : list byte) (self' : ASL5600L D) (ok : bool),
    read_register x0b 1 self = Ok (data, self') /\
    byte_to_int x0b = STATUS_REG /\
    isOk self = Ok (ok, self') /\
    (ok = true <->
     Z.testbit (int_from_bytes_big data) 5 = true /\
     Z.testbit (int_from_bytes_big data) 3 = false /\
     Z.testbit (int_from_bytes_big data) 4 = false) /\
    ok = isOk_table (Z.testbit (int_from_bytes_big data) 5)
           (Z.testbit (int_from_bytes_big data) 3)
           (Z.testbit (int_from_bytes_big data) 4).
Proof.
  pose proof (isOk_run self) as E.
  pose proof (read_register_run x0b 1 self) as R.
  destruct (read_result x0b 1 self) as [data self'].
  exists data, self'. eexists. split; [exact R|]. split; [reflexivity|].
  split; [exact E|]. split; [apply isOk_table_spec | reflexivity].
Qed.

(** C6.  [getStatus] decodes bit 3 of the status byte as "magnet too
    strong", bit 4 as "magnet too weak" and bit 5 as "magnet detected",
    and returns the three booleans and the AGC reading in every case,
    whatever the status says. *)
Theorem getStatus_decodes (self : ASL5600L D) :
  exists (sdata adata : list byte) (self1 self2 : ASL5600L D)
         (st : gmap string PyVal),
    read_register x0b 1 self = Ok (sdata, self1) /\
    read_register x1a 1 self1 = Ok (adata, self2) /\
    byte_to_int x0b = STATUS_REG /\
    byte_to_int x1a = AGC_REG /\
    getStatus self = Ok (st, self2) /\
    st !! "magnetTooStrong"
      = Some (PyBool (Z.testbit (int_from_bytes_big sdata) 3)) /\
    st !! "magnetTooWeak"
      = Some (PyBool (Z.testbit (int_from_bytes_big sdata) 4)) /\
    st !! "magnetDetected"
      = Some (PyBool (Z.testbit (int_from_bytes_big sdata) 5)) /\
    st !! "agc" = Some (PyInt (int_from_bytes_big adata)) /\
    dom st = {["magnetDetected"; "magnetTooWeak"; "magnetTooStrong"; "agc"]}.
Proof.
  pose proof (read_register_run x0b 1 self) as R1.
  destruct (read_result x0b 1 self) as [sdata self1].
  pose proof (read_register_run x1a 1 self1) as R2.
  destruct (read_result x1a 1 self1) as [adata self2].
  exists sdata, adata, self1, self2. eexists.
  split; [exact R1|]. split; [exact R2|].
  split; [reflexivity|]. split; [reflexivity|].
  split.
  { unfold read_register, bind in R1, R2.
    unfold getStatus, bind, lift.
    change (bytes [STATUS_REG]) with (Ok [x0b]).
    change (bytes [AGC_REG]) with (Ok [x1a]). cbv iota beta.
    destruct (writeto ADDRESS [x0b] self) as [[[] s1]|e]; [|discriminate].
    destruct (readfrom ADDRESS 1 s1) as [[data s2]|e]; [|discriminate].
    injection R1 as -> ->.
    destruct (writeto ADDRESS [x1a] self1) as [[[] s3]|e]; [|discriminate].
    destruct (readfrom ADDRESS 1 s3) as [[data' s4]|e]; [|discriminate].
    injection R2 as -> ->.
    destruct (status_bits (int_from_bytes_big sdata)) as (-> & -> & ->).
    reflexivity. }
  (* the lookups and the domain of the four-key dictionary compute *)
  repeat split.
Qed.

(** C3.  [getAngleDegrees] first asks [isOk].  When the answer is false it
    returns None and stops: the only transactions are those of the status
    read, none selects the angle register.  When the answer is true it
    reads the angle register, once, and returns the converted value. *)
Theorem getAngleDegrees_gated (self : ASL5600L D) :
  exists (ok : bool) (self1 : ASL5600L D),
    isOk self = Ok (ok, self1) /\
    if ok then
      exists (raw : Z) (self2 : ASL5600L D),
        getAngle self1 = Ok (raw, self2) /\
        getAngleDegrees self = Ok (Some (degrees_of_raw raw), self2) /\
        count_selects ANGLE_REG (trace (i2c self2))
        = S (count_selects ANGLE_REG (trace (i2c self)))
    else
      getAngleDegrees self = Ok (None, self1) /\
      self1 = snd (read_result x0b 1 self) /\
      trace (i2c self1)
      = trace (i2c self) ++ [WriteTo ADDRESS [x0b]; ReadFrom ADDRESS 1] /\
      count_selects ANGLE_REG (trace (i2c self1))
      = count_selects ANGLE_REG (trace (i2c self)).
Proof.
  pose proof (getAngleDegrees_run self) as E.
  pose proof (isOk_run self) as EO.
  pose proof (read_result_trace x0b 1 self) as T1.
  destruct (read_result x0b 1 self) as [sdata self1]. cbn [snd] in T1.
  cbv beta iota zeta in EO. rewrite EO in E.
  assert (C0 : count_selects ANGLE_REG
                 [WriteTo ADDRESS [x0b]; ReadFrom ADDRESS 1] = 0%nat)
    by reflexivity.
  assert (C1 : count_selects ANGLE_REG
                 [WriteTo ADDRESS [x0e]; ReadFrom ADDRESS 2] = 1%nat)
    by reflexivity.
  match type of EO with _ = Ok (?b, _) => destruct b end.
  - exists true, self1. split; [exact EO|].
    pose proof (getAngle_run self1) as EA.
    pose proof (read_result_trace x0e 2 self1) as T2.
    destruct (read_result x0e 2 self1) as [adata self2]. cbn [snd] in T2.
    cbv beta iota in EA.
    exists (int_from_bytes_big adata), self2.
    split; [exact EA|]. split; [now rewrite E, EA|].
    rewrite T2, T1, !count_selects_app, C0, C1. lia.
  - exists false, self1. split; [exact EO|].
    repeat split; try assumption.
    rewrite T1, count_selects_app, C0. lia.
Qed.

(** C10.  [getAngleDegreesFast] selects the register [getAngle] selects
    (its literal 0x0e is ANGLE_REG), decodes the two bytes the same way and
    converts them the same way: from any state it returns the conversion of
    what [getAngle] returns there and leaves the same state; so after a
    status check that passed, it returns what [getAngleDegrees] returns. *)
Theorem getAngleDegreesFast_refines (self : ASL5600L D) :
  byte_to_int x0e = ANGLE_REG /\
  bytes [ANGLE_REG] = Ok [x0e] /\
  (exists (raw : Z) (self' : ASL5600L D),
     getAngle self = Ok (raw, self') /\
     getAngleDegreesFast self = Ok (degrees_of_raw raw, self')) /\
  (exists (ok : bool) (self1 : ASL5600L D) (raw : Z) (self2 : ASL5600L D),
     isOk self = Ok (ok, self1) /\
     getAngle self1 = Ok (raw, self2) /\
     getAngleDegreesFast self1 = Ok (degrees_of_raw raw, self2) /\
     getAngleDegrees self
     = Ok (if ok then Some (degrees_of_raw raw) else None,
           if ok then self2 else self1)).
Proof.
  assert (G : forall s : ASL5600L D, exists raw s',
             getAngle s = Ok (raw, s') /\
             getAngleDegreesFast s = Ok (degrees_of_raw raw, s')).
  { intros s. pose proof (getAngle_run s) as EA.
    pose proof (getAngleDegreesFast_run s) as EF.
    destruct (read_result x0e 2 s) as [data s']. eauto. }
  split; [reflexivity|]. split; [reflexivity|]. split; [apply G|].
  pose proof (getAngleDegrees_run self) as E.
  pose proof (isOk_run self) as EO.
  destruct (read_result x0b 1 self) as [sdata self1].
  cbv beta iota zeta in EO. rewrite EO in E.
  destruct (G self1) as (raw & self2 & EA & EF).
  eexists _, self1, raw, self2.
  split; [exact EO|]. split; [exact EA|]. split; [exact EF|].
  rewrite E. destruct (isOk_table _ _ _); [now rewrite EA | reflexivity].
Qed.

End QueryClaims.

(** ** On the simulated sensor *)

Lemma sim_load_length (p : Z) (n : nat) (m : gmap Z byte) :
  length (sim_load p n m) = n.
Proof.
  revert p; induction n as [|n IH]; intros p; simpl; [reflexivity|].
  now rewrite IH.
Qed.

#[export] Instance SimDevice_FullReads : FullReads SimDevice.
Proof.
  intros addr n d. cbn [dev_read SimDevice_Device]. unfold sim_read.
  destruct (addr =? ADDRESS); cbn [fst].
  - apply sim_load_length.
  - apply repeat_length.
Qed.

(** A register read on the simulated sensor returns the registers from the
    selected one on, and changes nothing but the pointer. *)
Lemma sim_read_result (reg : byte) (n : nat) (self : ASL5600L SimDevice) :
  read_result reg n self =
    (sim_load (byte_to_int reg) n (regs (wire (i2c self))),
     mkASL5600L
       (mkI2C (bus_id (i2c self)) (bus_freq (i2c self))
          (mkSim (byte_to_int reg) (regs (wire (i2c self))))
          (trace (i2c self) ++ [WriteTo ADDRESS [reg]; ReadFrom ADDRESS n]))).
Proof. reflexivity. Qed.

Lemma sim_load_poked (reg : Z) (b : byte) (d : SimDevice) :
  sim_load reg 1 (regs (sim_poke reg b d)) = [b].
Proof.
  unfold sim_poke, sim_load. cbn [regs]. now rewrite lookup_insert_eq.
Qed.

Lemma sim_load_poke_other (reg p : Z) (n : nat) (b : byte) (d : SimDevice) :
  reg < p ->
  sim_load p n (regs (sim_poke reg b d)) = sim_load p n (regs d).
Proof.
  unfold sim_poke. cbn [regs]. revert p.
  induction n as [|n IH]; intros p Hp; [reflexivity|].
  cbn [sim_load]. rewrite lookup_insert_ne by lia.
  now rewrite IH by lia.
Qed.

Lemma sim_load_angle (v : Z) (d : SimDevice) :
  sim_load ANGLE_REG 2 (regs (sim_poke_angle v d))
  = [byte_wrap (v / 256); byte_wrap v].
Proof.
  unfold sim_poke_angle, sim_poke, sim_load. cbn [regs].
  rewrite lookup_insert_eq, lookup_insert_ne, lookup_insert_eq;
    [reflexivity | unfold ANGLE_REG; lia].
Qed.

Lemma int_from_angle_bytes (v : Z) :
  0 <= v < 65536 ->
  int_from_bytes_big [byte_wrap (v / 256); byte_wrap v] = v.
Proof.
  intros Hv. rewrite int_from_bytes_big_2, !byte_wrap_to_int.
  rewrite (Z.mod_small (v / 256))
    by (split; [apply Z.div_pos | apply Z.div_lt_upper_bound]; lia).
  pose proof (Z.div_mod v 256). lia.
Qed.

(** No masking: whatever 16-bit value the register pair holds is returned
    as it is. *)
Lemma getAngle_sim (v : Z) (d : SimDevice) (id fr : Z) (tr : list BusOp) :
  0 <= v < 65536 ->
  getAngle (mkASL5600L (mkI2C id fr (sim_poke_angle v d) tr))
  = Ok (v,
        mkASL5600L
          (mkI2C id fr (mkSim ANGLE_REG (regs (sim_poke_angle v d)))
             (tr ++ [WriteTo ADDRESS [x0e]; ReadFrom ADDRESS 2]))).
Proof.
  intros Hv. rewrite getAngle_run, sim_read_result.
  cbn [i2c wire bus_id bus_freq trace].
  change (byte_to_int x0e) with ANGLE_REG.
  now rewrite sim_load_angle, int_from_angle_bytes.
Qed.

Lemma isOk_sim (b : byte) (d : SimDevice) (id fr : Z) (tr : list BusOp) :
  isOk (mkASL5600L (mkI2C id fr (sim_poke STATUS_REG b d) tr))
  = Ok (isOk_table (Z.testbit (byte_to_int b) 5)
          (Z.testbit (byte_to_int b) 3) (Z.testbit (byte_to_int b) 4),
        mkASL5600L
          (mkI2C id fr (mkSim STATUS_REG (regs (sim_poke STATUS_REG b d)))
             (tr ++ [WriteTo ADDRESS [x0b]; ReadFrom ADDRESS 1]))).
Proof.
  rewrite isOk_run, sim_read_result.
  cbn [i2c wire bus_id bus_freq trace].
  change (byte_to_int x0b) with STATUS_REG.
  now rewrite sim_load_poked.
Qed.

(** C7.  [getAngle] writes the selector of the angle register, reads two
    bytes, and returns them as a big-endian unsigned integer, unmasked:
    every 12-bit value placed in the register pair of the simulated sensor,
    0 and 4095 included, comes back as it is. *)
Theorem getAngle_round_trip (v : Z) (d : SimDevice) (id fr : Z)
  (tr : list BusOp) :
  0 <= v < 4096 ->
  exists self' : ASL5600L SimDevice,
    getAngle (mkASL5600L (mkI2C id fr (sim_poke_angle v d) tr))
    = Ok (v, self') /\
    trace (i2c self') = tr ++ [WriteTo ADDRESS [x0e]; ReadFrom ADDRESS 2] /\
    byte_to_int x0e = ANGLE_REG /\
    regs (wire (i2c self')) = regs (sim_poke_angle v d).
Proof.
  intros Hv. eexists. split; [apply getAngle_sim; lia|].
  repeat split.
Qed.

Lemma getAngle_round_trip_witness :
  exists self' : ASL5600L SimDevice,
    getAngle (mkASL5600L (mkI2C 0 1000000 (sim_poke_angle 4095 sim_blank) []))
    = Ok (4095, self') /\
    trace (i2c self') = [] ++ [WriteTo ADDRESS [x0e]; ReadFrom ADDRESS 2] /\
    byte_to_int x0e = ANGLE_REG /\
    regs (wire (i2c self')) = regs (sim_poke_angle 4095 sim_blank).
Proof.
  apply (getAngle_round_trip 4095 sim_blank 0 1000000 []). lia.
Defined.

(** ** The conversion to degrees *)

Lemma degrees_checked : forallb degrees_check (seq 0 4096) = true.
Proof. vm_compute. reflexivity. Qed.

Lemma degrees_of_raw_facts (v : Z) :
  0 <= v < 4096 ->
  (0 <=? degrees_of_raw v)%float = true /\
  (degrees_of_raw v <? 360)%float = true /\
  (degrees_of_raw v * 4096 =? py_float (360 * v))%float = true.
Proof.
  intros Hv.
  pose proof (proj1 (forallb_forall degrees_check (seq 0 4096))
                degrees_checked (Z.to_nat v)) as C.
  unfold degrees_check in C. cbv zeta in C.
  rewrite Z2Nat.id in C by lia.
  rewrite !andb_true_iff in C.
  apply and_assoc, C, in_seq. lia.
Qed.

Lemma getAngle_sim_regs (self : ASL5600L SimDevice) :
  getAngle self
  = Ok (int_from_bytes_big (sim_load ANGLE_REG 2 (regs (wire (i2c self)))),
        mkASL5600L
          (mkI2C (bus_id (i2c self)) (bus_freq (i2c self))
             (mkSim ANGLE_REG (regs (wire (i2c self))))
             (trace (i2c self)
              ++ [WriteTo ADDRESS [x0e]; ReadFrom ADDRESS 2]))).
Proof. now rewrite getAngle_run, sim_read_result. Qed.

(** C5.  With a valid status and a raw angle of the 12-bit range,
    [getAngleDegrees] returns raw / 4096 * 360 as a float, a value in
    [0, 360) that is exact; [getAngleDegreesFast] returns the same value
    for the same raw angle; raw angle 2048 gives 180.0, 0 gives 0.0 and 4095
    gives 359.912109375, within a thousandth of 359.912. *)
Theorem degrees_in_range_and_agree (v : Z) (b : byte) (d : SimDevice)
  (id fr : Z) (tr : list BusOp) :
  0 <= v < 4096 ->
  isOk_table (Z.testbit (byte_to_int b) 5) (Z.testbit (byte_to_int b) 3)
    (Z.testbit (byte_to_int b) 4) = true ->
  exists self1 self2 : ASL5600L SimDevice,
    getAngleDegrees
      (mkASL5600L
         (mkI2C id fr (sim_poke STATUS_REG b (sim_poke_angle v d)) tr))
    = Ok (Some (degrees_of_raw v), self1) /\
    getAngleDegreesFast
      (mkASL5600L
         (mkI2C id fr (sim_poke STATUS_REG b (sim_poke_angle v d)) tr))
    = Ok (degrees_of_raw v, self2) /\
    degrees_of_raw v = (py_float v / 4096 * 360)%float /\
    (0 <=? degrees_of_raw v)%float = true /\
    (degrees_of_raw v <? 360)%float = true /\
    (degrees_of_raw v * 4096 =? py_float (360 * v))%float = true /\
    degrees_of_raw 2048 = 180%float /\
    degrees_of_raw 0 = 0%float /\
    degrees_of_raw 4095 = 359.912109375%float /\
    (abs (degrees_of_raw 4095 - 359912 / 1000) <? 1 / 1000)%float = true.
Proof.
  intros Hv Hok.
  assert (L : sim_load ANGLE_REG 2
                (regs (sim_poke STATUS_REG b (sim_poke_angle v d)))
              = [byte_wrap (v / 256); byte_wrap v]).
  { rewrite sim_load_poke_other by (unfold STATUS_REG, ANGLE_REG; lia).
    apply sim_load_angle. }
  destruct (degrees_of_raw_facts v Hv) as (F1 & F2 & F3).
  eexists _, _. split; [|split].
  - rewrite getAngleDegrees_run, isOk_sim, Hok, getAngle_sim_regs.
    cbn [i2c wire regs]. rewrite L, int_from_angle_bytes by lia.
    reflexivity.
  - rewrite getAngleDegreesFast_run, sim_read_result.
    cbn [i2c wire]. change (byte_to_int x0e) with ANGLE_REG.
    rewrite L, int_from_angle_bytes by lia. reflexivity.
  - repeat split; try assumption; vm_compute; reflexivity.
Qed.

Lemma degrees_in_range_and_agree_witness :
  exists self1 self2 : ASL5600L SimDevice,
    getAngleDegrees
      (mkASL5600L
         (mkI2C 0 1000000
            (sim_poke STATUS_REG x20 (sim_poke_angle 2048 sim_blank)) []))
    = Ok (Some 180%float, self1) /\
    getAngleDegreesFast
      (mkASL5600L
         (mkI2C 0 1000000
            (sim_poke STATUS_REG x20 (sim_poke_angle 2048 sim_blank)) []))
    = Ok (180%float, self2).
Proof.
  destruct (degrees_in_range_and_agree 2048 x20 sim_blank 0 1000000 [])
    as (self1 & self2 & E1 & E2 & _ & _ & _ & _ & E & _).
  - lia.
  - reflexivity.
  - exists self1, self2. rewrite <- E. split; assumption.
Defined.

(** The upper bound rests on the device contract that a raw angle has 12
    bits: a register pair holding 4096, which two bytes can encode,
    converts to 360. *)
Lemma degrees_of_raw_4096 : degrees_of_raw 4096 = 360%float.
Proof. vm_compute. reflexivity. Qed.

(** ** Further facts *)

Section FullReadsFacts.
Context {D : Type} `{FullReads D}.

(** On a bus that answers reads in full, the status and the AGC reading
    are single bytes and the raw angle is a 16-bit value. *)
Lemma read_result_range (reg : byte) (n : nat) (self : ASL5600L D) :
  0 <= int_from_bytes_big (fst (read_result reg n self)) < 256 ^ Z.of_nat n.
Proof.
  pose proof (int_from_bytes_big_range (fst (read_result reg n self))) as R.
  unfold read_result in *. cbn [fst] in *.
  now rewrite dev_read_length in R.
Qed.

Lemma getAngle_16bit (self : ASL5600L D) :
  exists (raw : Z) (self' : ASL5600L D),
    getAngle self = Ok (raw, self') /\ 0 <= raw < 65536.
Proof.
  pose proof (getAngle_run self) as E.
  pose proof (read_result_range x0e 2 self) as R.
  destruct (read_result x0e 2 self) as [data self'].
  exists (int_from_bytes_big data), self'. split; [exact E|exact R].
Qed.

End FullReadsFacts.

Example config_word_wild_arguments :
  config_word (mkOptions 0 1000000 (-1) 99 256 (-7) 4 1000000 2) = (0, 0).
Proof. reflexivity. Qed.

Example config_word_hyst_7 :
  config_word (set_option Hyst 7 default_options)
  = config_word default_options.
Proof. reflexivity. Qed.

Example config_word_all_ones :
  config_word (mkOptions 0 1000000 3 3 1 7 3 3 1) = (0x3F, 0xDF).
Proof. reflexivity. Qed.

Example isOk_sim_detected :
  exists self',
    isOk (mkASL5600L (mkI2C 0 1000000 (sim_poke STATUS_REG x20 sim_blank) []))
    = Ok (true, self').
Proof. eexists. rewrite isOk_sim. reflexivity. Qed.

Example isOk_sim_too_weak :
  exists self',
    isOk (mkASL5600L (mkI2C 0 1000000 (sim_poke STATUS_REG x30 sim_blank) []))
    = Ok (false, self').
Proof. eexists. rewrite isOk_sim. reflexivity. Qed.

Example getAngleDegrees_sim_no_magnet :
  exists self',
    getAngleDegrees
      (mkASL5600L
         (mkI2C 0 1000000
            (sim_poke STATUS_REG x00 (sim_poke_angle 2048 sim_blank)) []))
    = Ok (None, self') /\
    trace (i2c self') = [WriteTo ADDRESS [x0b]; ReadFrom ADDRESS 1].
Proof.
  eexists. rewrite getAngleDegrees_run, isOk_sim. split; reflexivity.
Qed.

(** * Further properties of the code *)

(** ** The configuration word as a code *)

Lemma valid_options_each (o : Options) (f : Field) :
  valid_options o = true -> valid_option f o = true.
Proof.
  unfold valid_options. cbn [forallb]. rewrite !andb_true_iff.
  intros (Hh & Hpm & Hw & Hf & Hs & Hp & Hos & _). now destruct f.
Qed.

(** X1.  Every option can be read back from the two bytes the constructor
    assembles: its field holds the value supplied when that value passed
    the range test of the constructor, and zero when it did not. *)
Theorem config_word_decodes (f : Field) (o : Options) :
  field_bits f (config_word o)
  = if in_range (get_option f o) 0 (valid_hi f) then get_option f o else 0.
Proof.
  rewrite field_bits_config_word. reflexivity.
Qed.

(** X2.  Two calls with valid options that assemble the same two bytes
    were given the same seven option values: the encoding loses nothing. *)
Theorem config_word_injective (o1 o2 : Options) :
  valid_options o1 = true ->
  valid_options o2 = true ->
  config_word o1 = config_word o2 ->
  forall f : Field, get_option f o1 = get_option f o2.
Proof.
  intros V1 V2 E f.
  rewrite <- (effective_valid f o1), <- (effective_valid f o2)
    by now apply valid_options_each.
  now rewrite <- !field_bits_config_word, E.
Qed.

Lemma config_word_injective_witness :
  get_option FastFilterThreshold vector_options
  = get_option FastFilterThreshold (mkOptions 1 400000 2 1 1 5 2 3 1).
Proof.
  apply (config_word_injective vector_options
           (mkOptions 1 400000 2 1 1 5 2 3 1)); reflexivity.
Defined.

(** X3.  Whatever the arguments, the constructor never sets bits 6 and 7
    of the first byte nor bit 5 of the second byte: the first byte is at
    most 0x3F, and the output stage field never exceeds 1. *)
Theorem config_word_reserved_bits (o : Options) :
  0 <= fst (config_word o) <= 0x3F /\
  Z.testbit (fst (config_word o)) 6 = false /\
  Z.testbit (fst (config_word o)) 7 = false /\
  Z.testbit (snd (config_word o)) 5 = false.
Proof.
  rewrite config_word_effective. cbn [fst snd].
  unfold packed_C1, packed_C2, zero_invalid.
  cbn [watchdog fastFilterThreshold slowFilter pwmFreq outputStage powerMode
       hyst].
  pose proof (effective_range Hyst o) as Hh.
  pose proof (effective_range PowerMode o) as Hpm.
  pose proof (effective_range Watchdog o) as Hw.
  pose proof (effective_range FastFilterThreshold o) as Hf.
  pose proof (effective_range SlowFilter o) as Hs.
  pose proof (effective_range PwmFreq o) as Hp.
  pose proof (effective_range OutputStage o) as Hos.
  cbn [valid_hi] in *.
  generalize dependent (effective Hyst o).
  generalize dependent (effective PowerMode o).
  generalize dependent (effective Watchdog o).
  generalize dependent (effective FastFilterThreshold o).
  generalize dependent (effective SlowFilter o).
  generalize dependent (effective PwmFreq o).
  generalize dependent (effective OutputStage o).
  intros os Hos p Hp s Hs ff Hf w Hw pm Hpm h Hh.
  assert (Ew : w = 0 \/ w = 1) by lia.
  assert (Es : s = 0 \/ s = 1 \/ s = 2 \/ s = 3) by lia.
  assert (Ef : ff = 0 \/ ff = 1 \/ ff = 2 \/ ff = 3 \/
               ff = 4 \/ ff = 5 \/ ff = 6 \/ ff = 7) by lia.
  assert (C1 : 0 <= Z.lor (Z.lor (Z.shiftl w 5) (Z.shiftl ff 2)) s <= 0x3F /\
               Z.testbit (Z.lor (Z.lor (Z.shiftl w 5) (Z.shiftl ff 2)) s) 6
               = false /\
               Z.testbit (Z.lor (Z.lor (Z.shiftl w 5) (Z.shiftl ff 2)) s) 7
               = false).
  { clear Hw Hs Hf. split_ors; subst; repeat split; discriminate. }
  destruct C1 as (B & T6 & T7).
  split; [exact B|]. split; [exact T6|]. split; [exact T7|].
  clear Ew Es Ef B T6 T7.
  assert (Eh : h = 0 \/ h = 1 \/ h = 2 \/ h = 3) by lia.
  assert (Epm : pm = 0 \/ pm = 1 \/ pm = 2 \/ pm = 3) by lia.
  assert (Ep : p = 0 \/ p = 1 \/ p = 2 \/ p = 3) by lia.
  assert (Eos : os = 0 \/ os = 1) by lia.
  split_ors; subst; reflexivity.
Qed.

(** ** Bus traffic of the queries, on any device *)

Section QueryTraffic.
Context {D : Type} `{Device D}.

Lemma getConf_run (self : ASL5600L D) :
  getConf self =
    let (data, self') := read_result x07 2 self in
    Ok (int_from_bytes_big data, self').
Proof.
  pose proof (read_register_run x07 2 self) as R.
  unfold read_register, bind in R.
  unfold getConf, bind, lift.
  change (bytes [CONF_REG]) with (Ok [x07]). cbv iota beta.
  destruct (writeto ADDRESS [x07] self) as [[[] s1]|e]; [|discriminate].
  destruct (readfrom ADDRESS 2 s1) as [[data s2]|e]; [|discriminate].
  now replace (read_result x07 2 self) with (data, s2) by congruence.
Qed.

Lemma getStatus_run (self : ASL5600L D) :
  getStatus self =
    let (sdata, self1) := read_result x0b 1 self in
    let (adata, self2) := read_result x1a 1 self1 in
    let status := int_from_bytes_big sdata in
    Ok (<["magnetDetected" := PyBool (Z.testbit status 5)]>
          (<["magnetTooWeak" := PyBool (Z.testbit status 4)]>
             (<["magnetTooStrong" := PyBool (Z.testbit status 3)]>
                (<["agc" := PyInt (int_from_bytes_big adata)]> ∅))),
        self2).
Proof.
  pose proof (read_register_run x0b 1 self) as R1.
  destruct (read_result x0b 1 self) as [sdata self1].
  pose proof (read_register_run x1a 1 self1) as R2.
  destruct (read_result x1a 1 self1) as [adata self2].
  unfold read_register, bind in R1, R2.
  unfold getStatus, bind, lift.
  change (bytes [STATUS_REG]) with (Ok [x0b]).
  change (bytes [AGC_REG]) with (Ok [x1a]). cbv iota beta.
  destruct (writeto ADDRESS [x0b] self) as [[[] s1]|e]; [|discriminate].
  destruct (readfrom ADDRESS 1 s1) as [[data s2]|e]; [|discriminate].
  injection R1 as -> ->.
  destruct (writeto ADDRESS [x1a] self1) as [[[] s3]|e]; [|discriminate].
  destruct (readfrom ADDRESS 1 s3) as [[data' s4]|e]; [|discriminate].
  injection R2 as -> ->.
  destruct (status_bits (int_from_bytes_big sdata)) as (-> & -> & ->).
  reflexivity.
Qed.

(** X4.  From the same state [isOk] and [getStatus] see the same status
    byte: [isOk] answers true exactly when the dictionary of [getStatus]
    says detected, not too strong and not too weak. *)
Theorem isOk_agrees_with_getStatus (self : ASL5600L D) :
  exists (st : gmap string PyVal) (self1 : ASL5600L D)
         (ok : bool) (self2 : ASL5600L D) (md mh ml : bool),
    getStatus self = Ok (st, self1) /\
    isOk self = Ok (ok, self2) /\
    st !! "magnetDetected" = Some (PyBool md) /\
    st !! "magnetTooStrong" = Some (PyBool mh) /\
    st !! "magnetTooWeak" = Some (PyBool ml) /\
    ok = md && negb mh && negb ml.
Proof.
  pose proof (getStatus_run self) as ES.
  pose proof (isOk_run self) as EO.
  destruct (read_result x0b 1 self) as [sdata self2].
  destruct (read_result x1a 1 self2) as [adata self1].
  cbv beta iota zeta in ES, EO.
  eexists _, self1, _, self2, _, _, _.
  split; [exact ES|]. split; [exact EO|].
  split; [reflexivity|]. split; [reflexivity|]. split; [reflexivity|].
  now destruct (Z.testbit _ 5), (Z.testbit _ 3), (Z.testbit _ 4).
Qed.

(** X5.  [getStatus] issues four transactions, in this order: select the
    status register, read one byte, select the AGC register, read one
    byte.  [getConf] issues two: select the configuration register, read
    two bytes, which it returns as a big-endian integer.  Neither raises,
    and neither writes anything but a register selector. *)
Theorem getStatus_getConf_traffic (self : ASL5600L D) :
  (exists (st : gmap string PyVal) (self' : ASL5600L D),
     getStatus self = Ok (st, self') /\
     trace (i2c self')
     = trace (i2c self)
       ++ [WriteTo ADDRESS [x0b]; ReadFrom ADDRESS 1;
           WriteTo ADDRESS [x1a]; ReadFrom ADDRESS 1]) /\
  (exists (data : list byte) (self' : ASL5600L D),
     getConf self = Ok (int_from_bytes_big data, self') /\
     read_register x07 2 self = Ok (data, self') /\
     trace (i2c self')
     = trace (i2c self) ++ [WriteTo ADDRESS [x07]; ReadFrom ADDRESS 2]) /\
  byte_to_int x0b = STATUS_REG /\
  byte_to_int x1a = AGC_REG /\
  byte_to_int x07 = CONF_REG.
Proof.
  split; [|split; [|repeat split]].
  - pose proof (getStatus_run self) as ES.
    pose proof (read_result_trace x0b 1 self) as T1.
    destruct (read_result x0b 1 self) as [sdata self1].
    pose proof (read_result_trace x1a 1 self1) as T2.
    destruct (read_result x1a 1 self1) as [adata self2].
    cbv beta iota zeta in ES. cbn [snd] in T1, T2.
    eexists _, self2. split; [exact ES|].
    now rewrite T2, T1, <- app_assoc.
  - pose proof (getConf_run self) as EC.
    pose proof (read_register_run x07 2 self) as R.
    pose proof (read_result_trace x07 2 self) as T.
    destruct (read_result x07 2 self) as [data self'].
    exists data, self'. repeat split; assumption.
Qed.

(** X6.  [getAngleDegreesFast] costs two transactions (select the angle
    register, read two bytes) and never selects the status register, while
    [getAngleDegrees] from the same state selects the status register once
    and costs four transactions when it returns a value and two when it
    returns None. *)
Theorem fast_and_gated_traffic (self : ASL5600L D) :
  exists (deg : float) (self_f : ASL5600L D)
         (res : option float) (self_g : ASL5600L D),
    getAngleDegreesFast self = Ok (deg, self_f) /\
    getAngleDegrees self = Ok (res, self_g) /\
    trace (i2c self_f)
    = trace (i2c self) ++ [WriteTo ADDRESS [x0e]; ReadFrom ADDRESS 2] /\
    count_selects STATUS_REG (trace (i2c self_f))
    = count_selects STATUS_REG (trace (i2c self)) /\
    count_selects STATUS_REG (trace (i2c self_g))
    = S (count_selects STATUS_REG (trace (i2c self))) /\
    length (trace (i2c self_g))
    = (length (trace (i2c self))
       + match res with Some _ => 4 | None => 2 end)%nat.
Proof.
  assert (C0 : count_selects STATUS_REG
                 [WriteTo ADDRESS [x0e]; ReadFrom ADDRESS 2] = 0%nat)
    by reflexivity.
  assert (C1 : count_selects STATUS_REG
                 [WriteTo ADDRESS [x0b]; ReadFrom ADDRESS 1] = 1%nat)
    by reflexivity.
  pose proof (getAngleDegreesFast_run self) as EF.
  pose proof (read_result_trace x0e 2 self) as TF.
  destruct (read_result x0e 2 self) as [fdata self_f].
  cbv beta iota in EF. cbn [snd] in TF.
  pose proof (getAngleDegrees_run self) as EG.
  pose proof (isOk_run self) as EO.
  pose proof (read_result_trace x0b 1 self) as T1.
  destruct (read_result x0b 1 self) as [sdata self1].
  cbv beta iota zeta in EO. cbn [snd] in T1. rewrite EO in EG.
  pose proof (getAngle_run self1) as EA.
  pose proof (read_result_trace x0e 2 self1) as T2.
  destruct (read_result x0e 2 self1) as [adata self2].
  cbv beta iota in EA. cbn [snd] in T2. rewrite EA in EG.
  destruct (isOk_table _ _ _).
  - eexists _, self_f, _, self2.
    split; [exact EF|]. split; [exact EG|]. split; [exact TF|].
    rewrite TF, T2, T1, !count_selects_app, !length_app, C0, C1.
    cbn [length]. repeat split; lia.
  - eexists _, self_f, _, self1.
    split; [exact EF|]. split; [exact EG|]. split; [exact TF|].
    rewrite TF, T1, !count_selects_app, !length_app, C0, C1.
    cbn [length]. repeat split; lia.
Qed.

End QueryTraffic.

(** ** The queries on the simulated sensor *)

Lemma getConf_sim (self : ASL5600L SimDevice) :
  getConf self
  = Ok (int_from_bytes_big (sim_load CONF_REG 2 (regs (wire (i2c self)))),
        mkASL5600L
          (mkI2C (bus_id (i2c self)) (bus_freq (i2c self))
             (mkSim CONF_REG (regs (wire (i2c self))))
             (trace (i2c self)
              ++ [WriteTo ADDRESS [x07]; ReadFrom ADDRESS 2]))).
Proof. now rewrite getConf_run, sim_read_result. Qed.

Lemma isOk_sim_regs (self : ASL5600L SimDevice) :
  isOk self
  = Ok (let status :=
          int_from_bytes_big (sim_load STATUS_REG 1 (regs (wire (i2c self))))
        in
        isOk_table (Z.testbit status 5) (Z.testbit status 3)
          (Z.testbit status 4),
        mkASL5600L
          (mkI2C (bus_id (i2c self)) (bus_freq (i2c self))
             (mkSim STATUS_REG (regs (wire (i2c self))))
             (trace (i2c self)
              ++ [WriteTo ADDRESS [x0b]; ReadFrom ADDRESS 1]))).
Proof. now rewrite isOk_run, sim_read_result. Qed.

Lemma getAngleDegreesFast_sim (self : ASL5600L SimDevice) :
  getAngleDegreesFast self
  = Ok (degrees_of_raw
          (int_from_bytes_big (sim_load ANGLE_REG 2 (regs (wire (i2c self))))),
        mkASL5600L
          (mkI2C (bus_id (i2c self)) (bus_freq (i2c self))
             (mkSim ANGLE_REG (regs (wire (i2c self))))
             (trace (i2c self)
              ++ [WriteTo ADDRESS [x0e]; ReadFrom ADDRESS 2]))).
Proof. now rewrite getAngleDegreesFast_run, sim_read_result. Qed.

Lemma getStatus_sim (self : ASL5600L SimDevice) :
  getStatus self
  = Ok (let status :=
          int_from_bytes_big (sim_load STATUS_REG 1 (regs (wire (i2c self))))
        in
        <["magnetDetected" := PyBool (Z.testbit status 5)]>
          (<["magnetTooWeak" := PyBool (Z.testbit status 4)]>
             (<["magnetTooStrong" := PyBool (Z.testbit status 3)]>
                (<["agc" :=
                     PyInt (int_from_bytes_big
                              (sim_load AGC_REG 1 (regs (wire (i2c self)))))]>
                   ∅))),
        mkASL5600L
          (mkI2C (bus_id (i2c self)) (bus_freq (i2c self))
             (mkSim AGC_REG (regs (wire (i2c self))))
             (trace (i2c self)
              ++ [WriteTo ADDRESS [x0b]; ReadFrom ADDRESS 1;
                  WriteTo ADDRESS [x1a]; ReadFrom ADDRESS 1]))).
Proof.
  rewrite getStatus_run, !sim_read_result. cbn [i2c wire regs trace].
  now rewrite <- app_assoc.
Qed.

Lemma getAngleDegrees_sim (self : ASL5600L SimDevice) :
  getAngleDegrees self
  = let status :=
      int_from_bytes_big (sim_load STATUS_REG 1 (regs (wire (i2c self)))) in
    if isOk_table (Z.testbit status 5) (Z.testbit status 3)
         (Z.testbit status 4)
    then
      Ok (Some (degrees_of_raw
                  (int_from_bytes_big
                     (sim_load ANGLE_REG 2 (regs (wire (i2c self)))))),
          mkASL5600L
            (mkI2C (bus_id (i2c self)) (bus_freq (i2c self))
               (mkSim ANGLE_REG (regs (wire (i2c self))))
               (trace (i2c self)
                ++ [WriteTo ADDRESS [x0b]; ReadFrom ADDRESS 1;
                    WriteTo ADDRESS [x0e]; ReadFrom ADDRESS 2])))
    else
      Ok (None,
          mkASL5600L
            (mkI2C (bus_id (i2c self)) (bus_freq (i2c self))
               (mkSim STATUS_REG (regs (wire (i2c self))))
               (trace (i2c self)
                ++ [WriteTo ADDRESS [x0b]; ReadFrom ADDRESS 1]))).
Proof.
  rewrite getAngleDegrees_run, isOk_sim_regs. cbv zeta.
  destruct (isOk_table _ _ _); [|reflexivity].
  rewrite getAngle_sim_regs. cbn [i2c wire regs trace bus_id bus_freq].
  now rewrite <- app_assoc.
Qed.

(** X7.  No query changes a register of the sensor: [getStatus], [isOk],
    [getAngle], [getAngleDegrees], [getAngleDegreesFast] and [getConf] all
    return, and leave the register file (and the bus handle's identity) as
    they found it; only the address pointer moves. *)
Theorem queries_keep_registers :
  keeps_registers getStatus /\
  keeps_registers isOk /\
  keeps_registers getAngle /\
  keeps_registers getAngleDegrees /\
  keeps_registers getAngleDegreesFast /\
  keeps_registers getConf.
Proof.
  unfold keeps_registers. repeat split; intros self.
  - rewrite getStatus_sim. eexists _, _. repeat split.
  - rewrite isOk_sim_regs. eexists _, _. repeat split.
  - rewrite getAngle_sim_regs. eexists _, _. repeat split.
  - rewrite getAngleDegrees_sim. cbv zeta.
    destruct (isOk_table _ _ _); eexists _, _; repeat split.
  - rewrite getAngleDegreesFast_sim. eexists _, _. repeat split.
  - rewrite getConf_sim. eexists _, _. repeat split.
Qed.

(** X8.  Every query selects its register itself, so its answer depends on
    the registers only: from two states of the simulated sensor with the
    same register file, whatever the pointers and the histories, each
    query returns the same value. *)
Theorem queries_depend_on_registers_only (self self' : ASL5600L SimDevice) :
  regs (wire (i2c self)) = regs (wire (i2c self')) ->
  value_of (getStatus self) = value_of (getStatus self') /\
  value_of (isOk self) = value_of (isOk self') /\
  value_of (getAngle self) = value_of (getAngle self') /\
  value_of (getAngleDegrees self) = value_of (getAngleDegrees self') /\
  value_of (getAngleDegreesFast self)
  = value_of (getAngleDegreesFast self') /\
  value_of (getConf self) = value_of (getConf self').
Proof.
  intros E.
  rewrite !getStatus_sim, !isOk_sim_regs, !getAngle_sim_regs,
    !getAngleDegrees_sim, !getAngleDegreesFast_sim, !getConf_sim.
  rewrite E. cbv zeta.
  destruct (isOk_table _ _ _); repeat split.
Qed.

Lemma queries_depend_on_registers_only_witness :
  value_of
    (getAngleDegrees
       (mkASL5600L
          (mkI2C 0 1000000
             (sim_poke STATUS_REG x20 (sim_poke_angle 1024 sim_blank)) [])))
  = value_of
      (getAngleDegrees
         (mkASL5600L
            (mkI2C 1 400000
               (mkSim AGC_REG
                  (regs (sim_poke STATUS_REG x20
                           (sim_poke_angle 1024 sim_blank))))
               [ReadFrom ADDRESS 1]))).
Proof.
  apply (queries_depend_on_registers_only
           (mkASL5600L
              (mkI2C 0 1000000
                 (sim_poke STATUS_REG x20 (sim_poke_angle 1024 sim_blank))
                 []))
           (mkASL5600L
              (mkI2C 1 400000
                 (mkSim AGC_REG
                    (regs (sim_poke STATUS_REG x20
                             (sim_poke_angle 1024 sim_blank))))
                 [ReadFrom ADDRESS 1]))).
  reflexivity.
Defined.

(** X9.  On the simulated sensor, construction stores the two assembled
    bytes in registers 0x07 and 0x08 and touches no other register, and
    [getConf] on the new object reads them back: it returns
    C1 * 256 + C2, from which the two bytes are recovered by division. *)
Theorem getConf_reads_back_init (d : SimDevice) (o : Options) :
  exists (b1 b2 : byte) (self self' : ASL5600L SimDevice) (raw : Z),
    __init__ d o = Ok self /\
    byte_to_int b1 = fst (config_word o) /\
    byte_to_int b2 = snd (config_word o) /\
    regs (wire (i2c self))
    = <[CONF_REG + 1 := b2]> (<[CONF_REG := b1]> (regs d)) /\
    getConf self = Ok (raw, self') /\
    raw = fst (config_word o) * 256 + snd (config_word o) /\
    (raw / 256, raw mod 256) = config_word o.
Proof.
  destruct (init_run d o) as (b1 & b2 & V1 & V2 & E).
  destruct (config_word_range o) as [R1 R2].
  assert (L : sim_load CONF_REG 2
                (<[CONF_REG + 1 := b2]> (<[CONF_REG := b1]> (regs d)))
              = [b1; b2]).
  { unfold sim_load.
    rewrite lookup_insert_ne, lookup_insert_eq, lookup_insert_eq
      by (unfold CONF_REG; lia).
    reflexivity. }
  exists b1, b2. eexists _, _, _.
  split; [exact E|]. split; [exact V1|]. split; [exact V2|].
  split; [reflexivity|].
  split; [rewrite getConf_sim; reflexivity|].
  cbn [i2c wire regs dev_write SimDevice_Device].
  change (regs (sim_write ADDRESS [x07; b1; b2] d))
    with (<[CONF_REG + 1 := b2]> (<[CONF_REG := b1]> (regs d))).
  rewrite L, int_from_bytes_big_2, V1, V2.
  split; [reflexivity|].
  destruct (config_word o) as [c1 c2]. cbn [fst snd] in *.
  f_equal.
  - rewrite Z.div_add_l, Z.div_small by lia. lia.
  - rewrite Z.add_comm, Z.mod_add, Z.mod_small by lia. reflexivity.
Qed.

(** ** The conversion to degrees, continued *)

Lemma resolution_checked : forallb resolution_check (seq 0 4096) = true.
Proof. vm_compute. reflexivity. Qed.

Lemma resolution_facts (v : Z) :
  0 <= v < 4096 ->
  raw_of_degrees (degrees_of_raw v) = v /\
  (v = 4095 \/
   (degrees_of_raw (v + 1) - degrees_of_raw v =? 360 / 4096)%float = true).
Proof.
  intros Hv.
  pose proof (proj1 (forallb_forall resolution_check (seq 0 4096))
                resolution_checked (Z.to_nat v)) as C.
  unfold resolution_check in C. cbv zeta in C.
  rewrite Z2Nat.id in C by lia.
  rewrite andb_true_iff, orb_true_iff, Z.eqb_eq, Nat.eqb_eq in C.
  destruct C as [C1 C2]; [apply in_seq; lia|].
  split; [exact C1|]. destruct C2 as [C2|C2]; [left; lia | now right].
Qed.

(** X10.  On the 12-bit range the conversion to degrees loses nothing:
    two raw angles with the same degree value are the same raw angle. *)
Theorem degrees_of_raw_injective (v1 v2 : Z) :
  0 <= v1 < 4096 ->
  0 <= v2 < 4096 ->
  degrees_of_raw v1 = degrees_of_raw v2 ->
  v1 = v2.
Proof.
  intros H1 H2 E.
  rewrite <- (proj1 (resolution_facts v1 H1)),
          <- (proj1 (resolution_facts v2 H2)).
  now rewrite E.
Qed.

Lemma degrees_of_raw_injective_witness : 2048 = 2048.
Proof.
  apply (degrees_of_raw_injective 2048 2048); [lia | lia | reflexivity].
Defined.

(** X11.  One step of the raw angle is exactly 360/4096 = 0.087890625
    degrees everywhere on the 12-bit range. *)
Theorem degrees_of_raw_step (v : Z) :
  0 <= v < 4095 ->
  (degrees_of_raw (v + 1) - degrees_of_raw v =? 360 / 4096)%float = true /\
  (360 / 4096)%float = 0.087890625%float.
Proof.
  intros Hv. split; [|reflexivity].
  destruct (resolution_facts v) as [_ [C|C]]; [lia | lia | exact C].
Qed.

Lemma degrees_of_raw_step_witness :
  (degrees_of_raw (4094 + 1) - degrees_of_raw 4094 =? 360 / 4096)%float
  = true /\
  (360 / 4096)%float = 0.087890625%float.
Proof.
  apply (degrees_of_raw_step 4094). lia.
Defined.

Lemma holds_from_spec (test : Z -> bool) (count : nat) (start z : Z) :
  holds_from test start count = true ->
  start <= z < start + Z.of_nat count ->
  test z = true.
Proof.
  revert start. induction count as [|count IH]; intros start Hc Hz; [lia|].
  cbn [holds_from] in Hc. apply andb_true_iff in Hc as [H0 Hrest].
  destruct (Z.eq_dec z start) as [->|Hne]; [exact H0|].
  apply (IH (start + 1)); [exact Hrest | lia].
Qed.

Lemma overflow_checked :
  holds_from overflow_check 4096 (Z.to_nat 61440) = true.
Proof. vm_compute. reflexivity. Qed.

(** X12.  Nothing in the code narrows the two bytes read to 12 bits: when
    the register pair holds a value from 4096 to 65535 and the status is
    valid, [getAngle] returns that value and [getAngleDegrees] returns its
    conversion, which is 360 or more. *)
Theorem getAngleDegrees_beyond_12_bits (v : Z) (b : byte) (d : SimDevice)
  (id fr : Z) (tr : list BusOp) :
  4096 <= v < 65536 ->
  isOk_table (Z.testbit (byte_to_int b) 5) (Z.testbit (byte_to_int b) 3)
    (Z.testbit (byte_to_int b) 4) = true ->
  exists self1 self2 : ASL5600L SimDevice,
    getAngle
      (mkASL5600L
         (mkI2C id fr (sim_poke STATUS_REG b (sim_poke_angle v d)) tr))
    = Ok (v, self1) /\
    getAngleDegrees
      (mkASL5600L
         (mkI2C id fr (sim_poke STATUS_REG b (sim_poke_angle v d)) tr))
    = Ok (Some (degrees_of_raw v), self2) /\
    (360 <=? degrees_of_raw v)%float = true.
Proof.
  intros Hv Hok.
  assert (L : sim_load ANGLE_REG 2
                (regs (sim_poke STATUS_REG b (sim_poke_angle v d)))
              = [byte_wrap (v / 256); byte_wrap v]).
  { rewrite sim_load_poke_other by (unfold STATUS_REG, ANGLE_REG; lia).
    apply sim_load_angle. }
  eexists _, _. split; [|split].
  - rewrite getAngle_sim_regs. cbn [i2c wire].
    rewrite L, int_from_angle_bytes by lia. reflexivity.
  - rewrite getAngleDegrees_sim. cbn [i2c wire]. cbv zeta.
    rewrite sim_load_poked, int_from_bytes_big_1, Hok.
    rewrite L, int_from_angle_bytes by lia. reflexivity.
  - apply (holds_from_spec overflow_check _ _ v overflow_checked). lia.
Qed.

Lemma getAngleDegrees_beyond_12_bits_witness :
  exists self2 : ASL5600L SimDevice,
    getAngleDegrees
      (mkASL5600L
         (mkI2C 0 1000000
            (sim_poke STATUS_REG x20 (sim_poke_angle 4096 sim_blank)) []))
    = Ok (Some (degrees_of_raw 4096), self2) /\
    (360 <=? degrees_of_raw 4096)%float = true.
Proof.
  destruct (getAngleDegrees_beyond_12_bits 4096 x20 sim_blank 0 1000000 [])
    as (self1 & self2 & _ & E & B).
  - lia.
  - reflexivity.
  - exists self2. split; assumption.
Defined.

(** ** The usage example *)

Lemma count_values_status (st : gmap string PyVal) (out : list Printed) :
  count_values (PrintedStatus st :: out) = count_values out.
Proof. reflexivity. Qed.

Lemma count_values_degrees (deg : option float) (out : list Printed) :
  count_values (PrintedDegrees deg :: out)
  = (match deg with Some _ => 1 | None => 0 end + count_values out)%nat.
Proof. now destruct deg. Qed.

Section Example.
Context {D : Type} `{Device D}.

Lemma getAngleDegrees_footprint (self : ASL5600L D) :
  exists (res : option float) (self' : ASL5600L D) (ops : list BusOp),
    getAngleDegrees self = Ok (res, self') /\
    trace (i2c self') = trace (i2c self) ++ ops /\
    existsb transfers_payload ops = false /\
    length ops = match res with Some _ => 4%nat | None => 2%nat end.
Proof.
  pose proof (getAngleDegrees_run self) as EG.
  pose proof (isOk_run self) as EO.
  pose proof (read_result_trace x0b 1 self) as T1.
  destruct (read_result x0b 1 self) as [sdata self1].
  cbv beta iota zeta in EO. cbn [snd] in T1. rewrite EO in EG.
  pose proof (getAngle_run self1) as EA.
  pose proof (read_result_trace x0e 2 self1) as T2.
  destruct (read_result x0e 2 self1) as [adata self2].
  cbv beta iota in EA. cbn [snd] in T2. rewrite EA in EG.
  destruct (isOk_table _ _ _).
  - eexists _, self2, _. split; [exact EG|].
    rewrite T2, T1, <- app_assoc. repeat split.
  - eexists _, self1, _. split; [exact EG|].
    rewrite T1. repeat split.
Qed.

Lemma poll_footprint (rounds : nat) (self : ASL5600L D) :
  exists (out : list Printed) (self' : ASL5600L D) (ops : list BusOp),
    poll rounds self = Ok (out, self') /\
    length out = rounds /\
    trace (i2c self') = trace (i2c self) ++ ops /\
    existsb transfers_payload ops = false /\
    length ops = (2 * rounds + 2 * count_values out)%nat.
Proof.
  revert self. induction rounds as [|rounds IH]; intros self.
  - exists [], self, []. repeat split. now rewrite app_nil_r.
  - destruct (getAngleDegrees_footprint self)
      as (res & self1 & ops1 & E1 & T1 & P1 & L1).
    destruct (IH self1) as (out & self2 & ops2 & E2 & O2 & T2 & P2 & L2).
    exists (PrintedDegrees res :: out), self2, (ops1 ++ ops2).
    split; [cbn [poll]; unfold bind; now rewrite E1, E2|].
    split; [cbn [length]; lia|].
    split; [now rewrite T2, T1, <- app_assoc|].
    split; [rewrite existsb_app, P1, P2; reflexivity|].
    rewrite length_app, L1, L2, count_values_degrees.
    destruct res; lia.
Qed.

(** X13.  The example, cut after any number of polling rounds, never
    raises and prints one status and one angle per round.  Its first
    transaction writes the configuration [0x07, 0x00, 0x04]; after it, no
    transaction carries more than a register selector, so the device is
    configured once and never again.  Those later transactions number
    four for the status, two per round, and two more per printed angle
    that is a value. *)
Theorem example_configures_once (d : D) (rounds : nat) :
  exists (out : list Printed) (self : ASL5600L D) (rest : list BusOp),
    example d rounds = Ok (out, self) /\
    length out = S rounds /\
    trace (i2c self) = WriteTo ADDRESS [x07; x00; x04] :: rest /\
    existsb transfers_payload rest = false /\
    length rest = (4 + 2 * rounds + 2 * count_values out)%nat.
Proof.
  unfold example.
  change (__init__ d (set_option Hyst 1 default_options))
    with (Ok (mkASL5600L
                (mkI2C 0 1000000 (dev_write ADDRESS [x07; x00; x04] d)
                   [WriteTo ADDRESS [x07; x00; x04]]))).
  set (myPos := mkASL5600L _).
  pose proof (getStatus_run myPos) as ES.
  pose proof (read_result_trace x0b 1 myPos) as T1.
  destruct (read_result x0b 1 myPos) as [sdata self1].
  pose proof (read_result_trace x1a 1 self1) as T2.
  destruct (read_result x1a 1 self1) as [adata self2].
  cbv beta iota zeta in ES. cbn [snd] in T1, T2.
  destruct (poll_footprint rounds self2)
    as (out & self3 & ops & EP & LO & TP & PP & LP).
  eexists (PrintedStatus _ :: out), self3, _.
  split; [unfold bind; now rewrite ES, EP|].
  split; [cbn [length]; lia|].
  split.
  { rewrite TP, T2, T1. subst myPos. cbn [i2c trace].
    rewrite <- !app_assoc. reflexivity. }
  split.
  { rewrite !existsb_app, PP. reflexivity. }
  rewrite !length_app, LP, count_values_status. cbn [length]. lia.
Qed.

End Example.

(** ** What the queries can return *)

Lemma span_checked : holds_from span_check 0 (Z.to_nat 65536) = true.
Proof. vm_compute. reflexivity. Qed.

Section QueryRanges.
Context {D : Type} `{FullReads D}.

(** X14.  On a bus that answers a read of n bytes with n bytes, [getAngle]
    and [getConf] return an integer from 0 to 65535, the AGC entry of
    [getStatus] is an integer from 0 to 255, and [getAngleDegreesFast]
    returns a float in [0, 5760): the two bytes are used as they come. *)
Theorem query_ranges (self : ASL5600L D) :
  (exists (raw : Z) (self' : ASL5600L D),
     getAngle self = Ok (raw, self') /\ 0 <= raw < 65536) /\
  (exists (raw : Z) (self' : ASL5600L D),
     getConf self = Ok (raw, self') /\ 0 <= raw < 65536) /\
  (exists (st : gmap string PyVal) (self' : ASL5600L D) (agc : Z),
     getStatus self = Ok (st, self') /\
     st !! "agc" = Some (PyInt agc) /\ 0 <= agc < 256) /\
  (exists (deg : float) (self' : ASL5600L D),
     getAngleDegreesFast self = Ok (deg, self') /\
     (0 <=? deg)%float = true /\ (deg <? 5760)%float = true).
Proof.
  split; [|split; [|split]].
  - pose proof (getAngle_run self) as E.
    pose proof (read_result_range x0e 2 self) as R.
    destruct (read_result x0e 2 self) as [data self'].
    exists (int_from_bytes_big data), self'. split; [exact E | exact R].
  - pose proof (getConf_run self) as E.
    pose proof (read_result_range x07 2 self) as R.
    destruct (read_result x07 2 self) as [data self'].
    exists (int_from_bytes_big data), self'. split; [exact E | exact R].
  - pose proof (getStatus_run self) as E.
    destruct (read_result x0b 1 self) as [sdata self1].
    pose proof (read_result_range x1a 1 self1) as R.
    destruct (read_result x1a 1 self1) as [adata self2].
    cbv beta iota zeta in E. cbn [fst] in R.
    eexists _, self2, (int_from_bytes_big adata).
    split; [exact E|]. split; [reflexivity | exact R].
  - pose proof (getAngleDegreesFast_run self) as E.
    pose proof (read_result_range x0e 2 self) as R.
    destruct (read_result x0e 2 self) as [data self'].
    cbv beta iota in E. cbn [fst] in R.
    eexists _, self'. split; [exact E|].
    apply andb_true_iff.
    apply (holds_from_spec span_check _ _ (int_from_bytes_big data)
             span_checked).
    change (Z.of_nat 2) with 2 in R. lia.
Qed.

End QueryRanges.

Lemma query_ranges_witness :
  exists (raw : Z) (self' : ASL5600L SimDevice),
    getAngle
      (mkASL5600L (mkI2C 0 1000000 (sim_poke_angle 65535 sim_blank) []))
    = Ok (raw, self') /\ 0 <= raw < 65536.
Proof.
  apply (query_ranges
           (mkASL5600L
              (mkI2C 0 1000000 (sim_poke_angle 65535 sim_blank) []))).
Defined.
